(** * Job-fit evaluator backend: cache key, verdict parsing and the handler

    A shallow embedding of [job-fit-evaluator/backend/main.py]:

    - [cache_key] with the library functions it calls written out
      ([str.encode], [json.dumps], [hashlib.sha256(..).hexdigest()]);
    - the [/job-fit] handler [job_fit] as a state-passing function over the
      module-level [CACHE] dictionary, with the outbound HTTP call taken as
      a parameter and a log of the calls the handler makes.

    Python [str] values are modelled as [string]: one [ascii] per
    character, for the characters with code points below 256.  Python
    [float] values are not part of the embedding. *)

From Stdlib Require Import ZArith String Ascii List Lia.
From stdpp Require Import gmap strings.
Import ListNotations.

Local Open Scope Z_scope.

(** ** Python string primitives *)

Module Py.

(** The double quote and the backslash, [chr(34)] and [chr(92)]. *)
Definition quote : ascii := "034"%char.
Definition backslash : ascii := "092"%char.
Definition dq : string := String quote EmptyString.

(** [len(s)] *)
Definition len (s : string) : Z := Z.of_nat (String.length s).

Fixpoint take (n : nat) (s : string) : string :=
  match n, s with
  | O, _ => EmptyString
  | _, EmptyString => EmptyString
  | S n', String c s' => String c (take n' s')
  end.

Fixpoint drop (n : nat) (s : string) : string :=
  match n, s with
  | O, _ => s
  | _, EmptyString => EmptyString
  | S n', String _ s' => drop n' s'
  end.

(** How a slice bound is read against a sequence of length [n]: a
    negative bound counts from the end, and the result is clamped to
    [0..n]. *)
Definition clamp (n i : Z) : Z :=
  if i <? 0 then Z.max 0 (i + n) else Z.min i n.

(** [s[start:stop]] *)
Definition slice (s : string) (start stop : Z) : string :=
  let lo := clamp (len s) start in
  let hi := clamp (len s) stop in
  take (Z.to_nat (hi - lo)) (drop (Z.to_nat lo) s).

(** [s[:stop]] *)
Definition slice_to (s : string) (stop : Z) : string := slice s 0 stop.

(** Index of the first occurrence of character [c], counted from [i]. *)
Fixpoint find_from (c : ascii) (s : string) (i : Z) : Z :=
  match s with
  | EmptyString => -1
  | String d s' => if Ascii.eqb d c then i else find_from c s' (i + 1)
  end.

(** [s.find(c)] for a one-character needle: the lowest index, or -1. *)
Definition find (s : string) (c : ascii) : Z := find_from c s 0.

(** Index of the last occurrence of character [c], counted from [i];
    [last] is the answer so far. *)
Fixpoint rfind_from (c : ascii) (s : string) (i last : Z) : Z :=
  match s with
  | EmptyString => last
  | String d s' =>
      rfind_from c s' (i + 1) (if Ascii.eqb d c then i else last)
  end.

(** [s.rfind(c)] for a one-character needle: the highest index, or -1. *)
Definition rfind (s : string) (c : ascii) : Z := rfind_from c s 0 (-1).

(** Truthiness of a [str]: the empty string is falsy. *)
Definition truthy (s : string) : bool :=
  match s with EmptyString => false | String _ _ => true end.

(** Code point of a character. *)
Definition ord (c : ascii) : Z := Z.of_nat (nat_of_ascii c).

Definition chr (n : Z) : ascii := ascii_of_nat (Z.to_nat n).

(** [s.encode()]: UTF-8.  A code point below 128 is one byte, one in
    128..255 is two bytes. *)
Fixpoint encode (s : string) : list Z :=
  match s with
  | EmptyString => []
  | String c s' =>
      let n := ord c in
      if n <? 128 then n :: encode s'
      else Z.lor 192 (Z.shiftr n 6) :: Z.lor 128 (Z.land n 63) :: encode s'
  end.

Definition hex_digit (n : Z) : ascii :=
  if n <? 10 then chr (48 + n) else chr (87 + n).

(** [n] written with [k] lowercase hexadecimal digits. *)
Fixpoint hex (k : nat) (n : Z) : string :=
  match k with
  | O => EmptyString
  | S k' => hex k' (Z.shiftr n 4) +:+ String (hex_digit (Z.land n 15)) EmptyString
  end.

(** Decimal digits of a positive number, most significant first. *)
Fixpoint digits (fuel : nat) (n : Z) (acc : string) : string :=
  match fuel with
  | O => acc
  | S fuel' =>
      let acc' := String (chr (48 + n mod 10)) acc in
      if n <? 10 then acc' else digits fuel' (n / 10) acc'
  end.

(** [str(n)] / [repr(n)] of an [int]. *)
Definition str_int (n : Z) : string :=
  if n <? 0 then "-" +:+ digits (Z.to_nat (Z.log2 (- n)) + 1) (- n) EmptyString
  else digits (Z.to_nat (Z.log2 n) + 1) n EmptyString.

End Py.

(** ** SHA-256 (FIPS 180-4), as [hashlib.sha256] computes it *)

Module SHA256.

Definition mask32 : Z := 0xFFFFFFFF.
Definition add32 (x y : Z) : Z := Z.land (x + y) mask32.
Definition rotr (n x : Z) : Z :=
  Z.lor (Z.shiftr x n) (Z.land (Z.shiftl x (32 - n)) mask32).
Definition shr (n x : Z) : Z := Z.shiftr x n.
Definition not32 (x : Z) : Z := Z.lxor x mask32.

Definition Ch (x y z : Z) : Z := Z.lxor (Z.land x y) (Z.land (not32 x) z).
Definition Maj (x y z : Z) : Z :=
  Z.lxor (Z.lxor (Z.land x y) (Z.land x z)) (Z.land y z).
Definition Sigma0 (x : Z) : Z := Z.lxor (Z.lxor (rotr 2 x) (rotr 13 x)) (rotr 22 x).
Definition Sigma1 (x : Z) : Z := Z.lxor (Z.lxor (rotr 6 x) (rotr 11 x)) (rotr 25 x).
Definition sigma0 (x : Z) : Z := Z.lxor (Z.lxor (rotr 7 x) (rotr 18 x)) (shr 3 x).
Definition sigma1 (x : Z) : Z := Z.lxor (Z.lxor (rotr 17 x) (rotr 19 x)) (shr 10 x).

(** The first 64 primes. *)
Definition primes : list Z :=
  [ 2; 3; 5; 7; 11; 13; 17; 19; 23; 29; 31; 37; 41; 43; 47; 53;
    59; 61; 67; 71; 73; 79; 83; 89; 97; 101; 103; 107; 109; 113; 127; 131;
    137; 139; 149; 151; 157; 163; 167; 173; 179; 181; 191; 193; 197; 199; 211; 223;
    227; 229; 233; 239; 241; 251; 257; 263; 269; 271; 277; 281; 283; 293; 307; 311 ].

(** The integer cube root of [n], found bit by bit from bit [b] down,
    [r] being the root so far. *)
Fixpoint root3_bits (b : nat) (n r : Z) : Z :=
  match b with
  | O => r
  | S b' =>
      let r' := r + 2 ^ Z.of_nat b' in
      root3_bits b' n (if r' * r' * r' <=? n then r' else r)
  end.

(** Section 4.2.2: the first 32 bits of the fractional parts of the cube
    roots of the first 64 primes. *)
Definition K : list Z :=
  Eval vm_compute in
    map (fun p => Z.land (root3_bits 40 (p * 2 ^ 96) 0) mask32) primes.

(** Big-endian bytes of [n], [k] of them. *)
Fixpoint be_bytes (k : nat) (n : Z) : list Z :=
  match k with
  | O => []
  | S k' => be_bytes k' (Z.shiftr n 8) ++ [Z.land n 255]
  end.

(** Section 5.1.1: a 1 bit, zero bits up to 448 mod 512, then the
    message length in bits on 64 bits. *)
Definition pad (msg : list Z) : list Z :=
  let l := Z.of_nat (List.length msg) in
  msg ++ [128] ++ repeat 0 (Z.to_nat ((55 - l) mod 64)) ++ be_bytes 8 (8 * l).

(** The big-endian number a list of bytes stands for. *)
Definition be_word (bs : list Z) : Z :=
  fold_left (fun acc b => Z.lor (Z.shiftl acc 8) b) bs 0.

(** [n] consecutive groups of [k] elements. *)
Fixpoint groups {A} (n k : nat) (l : list A) : list (list A) :=
  match n with
  | O => []
  | S n' => firstn k l :: groups n' k (skipn k l)
  end.

(** Section 6.2.2, step 1: the 64-word message schedule of a block. *)
Fixpoint extend (n : nat) (w : list Z) : list Z :=
  match n with
  | O => w
  | S n' =>
      let t := List.length w in
      let wt := add32 (add32 (add32 (sigma1 (nth (t - 2) w 0)) (nth (t - 7) w 0))
                             (sigma0 (nth (t - 15) w 0))) (nth (t - 16) w 0) in
      extend n' (w ++ [wt])
  end.

Definition schedule (block : list Z) : list Z :=
  extend 48 (map be_word (groups 16 4 block)).

Definition vars : Type := (Z * Z * Z * Z * Z * Z * Z * Z)%type.

(** Section 6.2.2, step 3: one round. *)
Definition round (v : vars) (kw : Z * Z) : vars :=
  let '(a, b, c, d, e, f, g, h) := v in
  let t1 := add32 (add32 (add32 (add32 h (Sigma1 e)) (Ch e f g)) (fst kw)) (snd kw) in
  let t2 := add32 (Sigma0 a) (Maj a b c) in
  (add32 t1 t2, a, b, c, add32 d t1, e, f, g).

(** Section 6.2.2: the hash value after one more block. *)
Definition compress (hs : vars) (block : list Z) : vars :=
  let '(a, b, c, d, e, f, g, h) := hs in
  let '(a', b', c', d', e', f', g', h') :=
    fold_left round (combine K (schedule block)) hs in
  (add32 a a', add32 b b', add32 c c', add32 d d',
   add32 e e', add32 f f', add32 g g', add32 h h').

(** Section 5.3.3: the first 32 bits of the fractional part of the square
    root of a prime. *)
Definition frac_sqrt (p : Z) : Z := Z.land (Z.sqrt (p * 2 ^ 64)) mask32.

(** The initial hash value, from the first 8 primes. *)
Definition init : vars :=
  Eval vm_compute in
    (frac_sqrt 2, frac_sqrt 3, frac_sqrt 5, frac_sqrt 7,
     frac_sqrt 11, frac_sqrt 13, frac_sqrt 17, frac_sqrt 19).

Definition digest (msg : list Z) : vars :=
  let p := pad msg in
  fold_left compress (groups (List.length p / 64) 64 p) init.

(** [hashlib.sha256(msg).hexdigest()]: 64 lowercase hexadecimal digits. *)
Definition hexdigest (msg : list Z) : string :=
  let '(a, b, c, d, e, f, g, h) := digest msg in
  Py.hex 8 a +:+ Py.hex 8 b +:+ Py.hex 8 c +:+ Py.hex 8 d +:+
  Py.hex 8 e +:+ Py.hex 8 f +:+ Py.hex 8 g +:+ Py.hex 8 h.

End SHA256.

(** ** JSON values, [json.dumps] and [json.loads] *)

(** The Python objects that [json.loads] returns and [json.dumps] takes:
    [None], [bool], [int], [str], [list] and [dict] with [str] keys.  A
    [dict] keeps its items in insertion order. *)
#[warnings="-register-all"]
Inductive json : Type :=
| JNull
| JBool (b : bool)
| JInt (n : Z)
| JStr (s : string)
| JList (l : list json)
| JDict (d : list (string * json)).

Module JSON.

Definition dict : Type := list (string * json).

(** [d[k] = v]: an existing key keeps its place and takes the new
    value, a new key goes last. *)
Fixpoint dict_set (k : string) (v : json) (d : dict) : dict :=
  match d with
  | [] => [(k, v)]
  | (k', v') :: d' =>
      if String.eqb k' k then (k', v) :: d' else (k', v') :: dict_set k v d'
  end.

(** *** Encoder: [json.dumps] with its defaults ([ensure_ascii=True],
    separators [", "] and [": "]) *)

(** [ESCAPE_DCT] and the [\uXXXX] fallback of [encode_basestring_ascii]. *)
Definition escape_char (c : ascii) : string :=
  let n := Py.ord c in
  if n =? 34 then String Py.backslash Py.dq
  else if n =? 92 then String Py.backslash (String Py.backslash EmptyString)
  else if n =? 10 then String Py.backslash "n"
  else if n =? 13 then String Py.backslash "r"
  else if n =? 9 then String Py.backslash "t"
  else if n =? 12 then String Py.backslash "f"
  else if n =? 8 then String Py.backslash "b"
  else if (32 <=? n) && (n <=? 126) then String c EmptyString
  else String Py.backslash ("u" +:+ Py.hex 4 n).

Fixpoint escape (s : string) : string :=
  match s with
  | EmptyString => EmptyString
  | String c s' => escape_char c +:+ escape s'
  end.

Definition encode_basestring_ascii (s : string) : string :=
  Py.dq +:+ escape s +:+ Py.dq.

(** [sep.join(parts)] *)
Fixpoint join (sep : string) (parts : list string) : string :=
  match parts with
  | [] => EmptyString
  | [p] => p
  | p :: ps => p +:+ sep +:+ join sep ps
  end.

Fixpoint dumps (v : json) : string :=
  match v with
  | JNull => "null"
  | JBool true => "true"
  | JBool false => "false"
  | JInt n => Py.str_int n
  | JStr s => encode_basestring_ascii s
  | JList l => "[" +:+ join ", " (map dumps l) +:+ "]"
  | JDict d =>
      "{" +:+ join ", "
        (map (fun kv => encode_basestring_ascii (fst kv) +:+ ": " +:+ dumps (snd kv)) d)
      +:+ "}"
  end.

(** *** Decoder: [json.loads] with its defaults *)

(** [WHITESPACE_STR] *)
Definition is_ws (c : ascii) : bool :=
  let n := Py.ord c in (n =? 32) || (n =? 9) || (n =? 10) || (n =? 13).

Fixpoint skip_ws (s : string) : string :=
  match s with
  | String c s' => if is_ws c then skip_ws s' else s
  | EmptyString => s
  end.

Definition is_digit (c : ascii) : bool :=
  let n := Py.ord c in (48 <=? n) && (n <=? 57).

Definition hex_val (c : ascii) : option Z :=
  let n := Py.ord c in
  if (48 <=? n) && (n <=? 57) then Some (n - 48)
  else if (97 <=? n) && (n <=? 102) then Some (n - 87)
  else if (65 <=? n) && (n <=? 70) then Some (n - 55)
  else None.

(** The character a [\uXXXX] escape stands for.  Code points from 256
    on have no character in this embedding. *)
Definition decode_uXXXX (h1 h2 h3 h4 : ascii) : option ascii :=
  match hex_val h1, hex_val h2, hex_val h3, hex_val h4 with
  | Some a, Some b, Some c, Some d =>
      let n := ((a * 16 + b) * 16 + c) * 16 + d in
      if n <? 256 then Some (Py.chr n) else None
  | _, _, _, _ => None
  end.

(** [BACKSLASH]: the one-letter escapes. *)
Definition unescape (e : ascii) : option ascii :=
  let n := Py.ord e in
  if n =? 34 then Some e
  else if n =? 92 then Some e
  else if n =? 47 then Some e
  else if n =? 98 then Some (Py.chr 8)
  else if n =? 102 then Some (Py.chr 12)
  else if n =? 110 then Some (Py.chr 10)
  else if n =? 114 then Some (Py.chr 13)
  else if n =? 116 then Some (Py.chr 9)
  else None.

Definition cons_char (c : ascii) (r : option (string * string)) :
  option (string * string) :=
  match r with
  | Some (s, rest) => Some (String c s, rest)
  | None => None
  end.

(** [scanstring], strict: [s] starts after the opening quote; the result
    is the decoded string and what follows the closing quote. *)
Fixpoint scanstring (s : string) : option (string * string) :=
  match s with
  | EmptyString => None
  | String c s' =>
      if Ascii.eqb c Py.quote then Some (EmptyString, s')
      else if Ascii.eqb c Py.backslash then
        match s' with
        | EmptyString => None
        | String e s'' =>
            if Ascii.eqb e "u"%char then
              match s'' with
              | String h1 (String h2 (String h3 (String h4 r))) =>
                  match decode_uXXXX h1 h2 h3 h4 with
                  | Some u => cons_char u (scanstring r)
                  | None => None
                  end
              | _ => None
              end
            else
              match unescape e with
              | Some u => cons_char u (scanstring s'')
              | None => None
              end
        end
      else if Py.ord c <? 32 then None
      else cons_char c (scanstring s')
  end.

Fixpoint scan_digits (s : string) (acc : Z) : Z * string :=
  match s with
  | String c s' =>
      if is_digit c then scan_digits s' (10 * acc + (Py.ord c - 48)) else (acc, s)
  | EmptyString => (acc, s)
  end.

(** The integer part of [NUMBER_RE]: [0|[1-9][0-9]*]. *)
Definition scan_int (s : string) : option (Z * string) :=
  match s with
  | String c s' =>
      if Ascii.eqb c "0"%char then Some (0, s')
      else if is_digit c then Some (scan_digits s 0)
      else None
  | EmptyString => None
  end.

(** Whether the fraction or the exponent of [NUMBER_RE] matches at [s]. *)
Definition float_tail (s : string) : bool :=
  match s with
  | String c (String d r) =>
      if Ascii.eqb c "."%char then is_digit d
      else if Ascii.eqb c "e"%char || Ascii.eqb c "E"%char then
        is_digit d ||
        ((Ascii.eqb d "+"%char || Ascii.eqb d "-"%char) &&
         match r with String d' _ => is_digit d' | EmptyString => false end)
      else false
  | _ => false
  end.

(** A number at [s].  A literal with a fraction or an exponent is a
    [float]: no value of [json] stands for it, and the answer is [None]. *)
Definition scan_number (s : string) : option (json * string) :=
  let '(sign, s1) :=
    match s with
    | String c s' => if Ascii.eqb c "-"%char then (-1, s') else (1, s)
    | EmptyString => (1, s)
    end in
  match scan_int s1 with
  | Some (n, rest) => if float_tail rest then None else Some (JInt (sign * n), rest)
  | None => None
  end.

(** [s] without the prefix [p], when it starts with it. *)
Fixpoint strip_prefix (p s : string) : option string :=
  match p, s with
  | EmptyString, _ => Some s
  | String a p', String b s' => if Ascii.eqb a b then strip_prefix p' s' else None
  | String _ _, EmptyString => None
  end.

(** [scan_once], [JSONObject] and [JSONArray].  [value] reads one value at
    the head of [s]; [members] reads the items of an object from just
    after the opening quote of a key; [elements] reads the items of an
    array from the first character of an item.  Each gives the value and
    the rest of the text, or [None] where the decoder raises
    [JSONDecodeError].  The fuel bounds the nesting of the calls; twice
    the length of the text and two more is enough of it ([loads_fuel]). *)
Fixpoint value (fuel : nat) (s : string) : option (json * string) :=
  match fuel with
  | O => None
  | S fuel' =>
      match s with
      | EmptyString => None
      | String c s' =>
          if Ascii.eqb c Py.quote then
            match scanstring s' with
            | Some (str, rest) => Some (JStr str, rest)
            | None => None
            end
          else if Ascii.eqb c "{"%char then
            match skip_ws s' with
            | String c1 r1 =>
                if Ascii.eqb c1 "}"%char then Some (JDict [], r1)
                else if Ascii.eqb c1 Py.quote then
                  match members fuel' r1 [] with
                  | Some (d, rest) => Some (JDict d, rest)
                  | None => None
                  end
                else None
            | EmptyString => None
            end
          else if Ascii.eqb c "["%char then
            match skip_ws s' with
            | String c1 r1 =>
                if Ascii.eqb c1 "]"%char then Some (JList [], r1)
                else
                  match elements fuel' (String c1 r1) with
                  | Some (l, rest) => Some (JList l, rest)
                  | None => None
                  end
            | EmptyString => None
            end
          else
            match strip_prefix "null" s, strip_prefix "true" s, strip_prefix "false" s with
            | Some rest, _, _ => Some (JNull, rest)
            | _, Some rest, _ => Some (JBool true, rest)
            | _, _, Some rest => Some (JBool false, rest)
            | None, None, None => scan_number s
            end
      end
  end
with members (fuel : nat) (s : string) (acc : dict) : option (dict * string) :=
  match fuel with
  | O => None
  | S fuel' =>
      match scanstring s with
      | None => None
      | Some (key, r) =>
          match skip_ws r with
          | String c1 r1 =>
              if Ascii.eqb c1 ":"%char then
                match value fuel' (skip_ws r1) with
                | None => None
                | Some (v, r2) =>
                    let acc' := dict_set key v acc in
                    match skip_ws r2 with
                    | String c3 r3 =>
                        if Ascii.eqb c3 "}"%char then Some (acc', r3)
                        else if Ascii.eqb c3 ","%char then
                          match skip_ws r3 with
                          | String c4 r4 =>
                              if Ascii.eqb c4 Py.quote then members fuel' r4 acc'
                              else None
                          | EmptyString => None
                          end
                        else None
                    | EmptyString => None
                    end
                end
              else None
          | EmptyString => None
          end
      end
  end
with elements (fuel : nat) (s : string) : option (list json * string) :=
  match fuel with
  | O => None
  | S fuel' =>
      match value fuel' s with
      | None => None
      | Some (v, r) =>
          match skip_ws r with
          | String c1 r1 =>
              if Ascii.eqb c1 "]"%char then Some ([v], r1)
              else if Ascii.eqb c1 ","%char then
                match elements fuel' (skip_ws r1) with
                | Some (l, rest) => Some (v :: l, rest)
                | None => None
                end
              else None
          | EmptyString => None
          end
      end
  end.

(** [json.loads(s)]: [Some] of the decoded document, [None] where
    [json.loads] raises [JSONDecodeError] (no value, or text after it). *)
Definition loads (s : string) : option json :=
  match value (2 * String.length s + 2) (skip_ws s) with
  | Some (v, rest) =>
      match skip_ws rest with
      | EmptyString => Some v
      | String _ _ => None
      end
  | None => None
  end.

End JSON.

(** ** The request and the cache key *)

(** [class FitRequest(BaseModel)]: [resume] and [preferences] default to
    [None], [job] is required. *)
Record FitRequest : Type := {
  resume : option string;
  preferences : option JSON.dict;
  job : string
}.

(** [p or {}]: [None] and the empty [dict] are falsy. *)
Definition or_empty (p : option JSON.dict) : JSON.dict :=
  match p with
  | Some (kv :: d) => kv :: d
  | Some [] => []
  | None => []
  end.

(** [json.dumps(data.preferences or {})] *)
Definition preferences_json (data : FitRequest) : string :=
  JSON.dumps (JDict (or_empty (preferences data))).

(** [data.resume[:50] if data.resume else "no-resume"] *)
Definition resume_part (data : FitRequest) : string :=
  match resume data with
  | Some (String c r) => Py.slice_to (String c r) 50
  | Some EmptyString => "no-resume"
  | None => "no-resume"
  end.

(** [cache_key].  The source also binds [job_part = data.job[:50]] and
    does not use it: the key is made from the whole job text. *)
Definition cache_key (data : FitRequest) : string :=
  let job_part := Py.slice_to (job data) 50 in
  let raw := resume_part data +:+ preferences_json data +:+ job data in
  SHA256.hexdigest (Py.encode raw).

(** ** The prompt *)

Definition q (s : string) : string := Py.dq +:+ s +:+ Py.dq.

(** [PROMPT_TEMPLATE], cut at its three fields, with the doubled braces
    of the format string written as [str.format] prints them. *)
Definition PROMPT_before_resume : string :=
  "
You are a job fit evaluator for a professional portfolio website.
Your task is to evaluate how well the portfolio owner fits a job.

Be objective and evidence based.
Do not assume skills that are not written.
If data is missing, say unknown.

GUIDELINES FOR MATCHING:
1. **Transferrable Skills**: Focus on underlying concepts and domain expertise rather than exact keyword matches.
   - *Cloud Platforms*: Experience in one major provider (AWS, GCP, Azure) IS transferrable to others. (e.g. If job asks for AWS and candidate has GCP, this is a MATCH).
   - *Languages/Frameworks*: Proficiency in comparable technologies implies adaptability (e.g. Java/C# or React/Vue).
2. **Seniority & Experience**: Evaluate potential and scope, not just job titles.
   - *Hierarchy*: " +:+ q "Staff" +:+ ", " +:+ q "Principal" +:+ ", or " +:+ q "Lead" +:+ " titles indicate a level *above* " +:+ q "Senior" +:+ ". A Staff Engineer is fully qualified for a Senior role.
GUIDELINES FOR INTELLIGENT MATCHING (NO KEYWORD MATCHING):

1. **Category-Based Evaluation**:
   - For every required skill, determine its *functional category* (e.g., " +:+ q "Cloud Provider" +:+ ", " +:+ q "Data Warehouse" +:+ ", " +:+ q "CI/CD" +:+ ").
   - Check if the candidate has strong expertise in *any equivalent tool* within that same category.
   - **Rule**: Expertise in ONE major tool in a category = Qualified for ALL tools in that category.
   - *Example*: GCP experience satisfies an AWS requirement. Jenkins experience satisfies a GitHub Actions requirement.

2. **Concept Over Syntax**:
   - Look for evidence of *concepts* rather than specific tool names.
   - " +:+ q "Data Pipelines" +:+ " or " +:+ q "ETL" +:+ " in a resume satisfies requirements for specific tools like " +:+ q "Airflow" +:+ " or " +:+ q "dbt" +:+ ".
   - " +:+ q "Infrastructure as Code" +:+ " satisfies Terraform or Pulumi.

3. **Seniority & Adaptability**:
   - If the candidate is **Senior/Staff+**, assume high adaptability.
   - Do NOT mark specific tools as gaps if the candidate has years of experience in the requested *domain* (e.g. Backend, Data, DevOps).

Resume:
".

Definition PROMPT_before_preferences : string :=
  "

Preferences:
".

Definition PROMPT_before_job : string :=
  "

Job Description:
".

Definition PROMPT_after_job : string :=
  "

TASK
Compare the resume and preferences to the job.
Evaluate skills match, experience level match, domain match, role and career alignment.

SCORING
Give a score from 0 to 100.
90-100: strong fit
70-89: good fit
50-69: partial fit
<50: weak fit

OUTPUT
Return ONLY valid JSON.
{
" +:+ q "fit_score" +:+ ": 0,
" +:+ q "fit_level" +:+ ": " +:+ q EmptyString +:+ ",
" +:+ q "aligned_areas" +:+ ": [],
" +:+ q "gaps" +:+ ": [],
" +:+ q "summary" +:+ ": " +:+ q EmptyString +:+ ",
" +:+ q "verdict" +:+ ": " +:+ q EmptyString +:+ "
}

Keep summary under 80 words.
".

(** [PROMPT_TEMPLATE.format(resume=.., preferences=.., job=..)] *)
Definition PROMPT_TEMPLATE_format (resume preferences job : string) : string :=
  PROMPT_before_resume +:+ resume +:+
  PROMPT_before_preferences +:+ preferences +:+
  PROMPT_before_job +:+ job +:+ PROMPT_after_job.

(** ** The handler *)

(** The exceptions that reach [except Exception as e] in [job_fit]. *)
Inductive exception : Type :=
| GatewayError (message : string)
    (** raised by [requests.post], [raise_for_status] or [r.json()];
        [message] is [str(e)] *)
| JSONDecodeError (doc : string)
    (** raised by [json.loads(doc)] *).

(** What the handler answers: a body, sent with status 200, or
    [HTTPException(status_code, detail=str(e))], [detail] given by the
    exception [e] whose text it is. *)
Inductive response : Type :=
| Return (body : json)
| HTTPException (status_code : Z) (detail : exception).

(** What the call to the model backend comes to (lines 124-138): an
    exception, or the text of the [response] field. *)
Inductive reply : Type :=
| Raises (message : string)
| Generated (text : string).

(** The collaborators the handler calls on, in the order of the calls. *)
Inductive call : Type :=
| CacheGet (key : string)
| PromptBuilder
| ModelGateway (prompt : string)
| VerdictParser (text : string)
| CachePut (key : string).

(** The process state: the module-level [CACHE] and the calls made so
    far. *)
Record state : Type := {
  CACHE : gmap string json;
  calls : list call
}.

Definition start : state := {| CACHE := ∅; calls := [] |}.

Definition called (cs : list call) (st : state) : state :=
  {| CACHE := CACHE st; calls := calls st ++ cs |}.

Definition resume_required : json :=
  JDict [("error", JStr "Resume text is required")].

Definition invalid_json (text : string) : json :=
  JDict [("error", JStr "invalid_json"); ("raw", JStr text)].

(** The prompt sent for a request whose resume is [r]. *)
Definition prompt_of (r : string) (req : FitRequest) : string :=
  PROMPT_TEMPLATE_format r (preferences_json req) (job req).

Section Handler.

(** [json.loads]: [None] where it raises [JSONDecodeError].  The handler
    is stated over any decoder, so that what is proved of it holds of the
    library's whatever documents that one accepts; [JSON.loads] is the
    decoder of the examples. *)
Variable json_loads : string -> option json.

(** The model backend, as a function of the prompt posted to it. *)
Variable ollama : string -> reply.

(** Lines 142-152: the parsed verdict, or the exception that leaves the
    inner [try]. *)
Definition parse_verdict (text : string) : json + exception :=
  match json_loads text with
  | Some parsed => inl parsed
  | None =>
      let start := Py.find text "{"%char in
      let end_ := Py.rfind text "}"%char + 1 in
      if negb (start =? -1) && negb (end_ =? -1) then
        match json_loads (Py.slice text start end_) with
        | Some parsed => inl parsed
        | None => inr (JSONDecodeError (Py.slice text start end_))
        end
      else inl (invalid_json text)
  end.

(** [job_fit], the handler of [POST /job-fit]. *)
Definition job_fit (req : FitRequest) (st : state) : response * state :=
  match resume req with
  | None => (Return resume_required, st)
  | Some EmptyString => (Return resume_required, st)
  | Some (String c r') =>
      let key := cache_key req in
      match CACHE st !! key with
      | Some stored => (Return stored, called [CacheGet key] st)
      | None =>
          let prompt := prompt_of (String c r') req in
          match ollama prompt with
          | Raises message =>
              (HTTPException 500 (GatewayError message),
               called [CacheGet key; PromptBuilder; ModelGateway prompt] st)
          | Generated text =>
              match parse_verdict text with
              | inl parsed =>
                  (Return parsed,
                   {| CACHE := <[key := parsed]> (CACHE st);
                      calls := calls st ++
                        [CacheGet key; PromptBuilder; ModelGateway prompt;
                         VerdictParser text; CachePut key] |})
              | inr e =>
                  (HTTPException 500 e,
                   called [CacheGet key; PromptBuilder; ModelGateway prompt;
                           VerdictParser text] st)
              end
          end
      end
  end.

End Handler.

(** [GET /health] *)
Definition health : json := JDict [("status", JStr "ok")].

(** ** Text searches, status, and requests served in a row *)

(** Whether [c] occurs in [s]. *)
Fixpoint occurs (c : ascii) (s : string) : bool :=
  match s with
  | EmptyString => false
  | String d s' => Ascii.eqb d c || occurs c s'
  end.

(** The HTTP status of an answer. *)
Definition status (r : response) : Z :=
  match r with
  | Return _ => 200
  | HTTPException status_code _ => status_code
  end.

(** Requests served one after the other, each with the backend's
    behaviour at that time. *)
Fixpoint serve (json_loads : string -> option json)
    (rs : list ((string -> reply) * FitRequest)) (st : state) : state :=
  match rs with
  | [] => st
  | (ollama, req) :: rs' => serve json_loads rs' (snd (job_fit json_loads ollama req st))
  end.

(** ** The requests, replies and states of the examples *)

Definition fifty : string := "Senior data engineer, ten years of pipelines, GCP.".

Definition resume_a : FitRequest :=
  {| resume := Some (fifty +:+ "; Airflow");
     preferences := Some [("remote", JBool true)];
     job := "Staff Engineer" |}.

Definition resume_b : FitRequest :=
  {| resume := Some (fifty +:+ "; dbt and Terraform");
     preferences := Some [("remote", JBool true)];
     job := "Staff Engineer" |}.

Definition remote_first : FitRequest :=
  {| resume := Some "My resume";
     preferences := Some [("remote", JBool true); ("min", JInt 120)];
     job := "Engineer" |}.

Definition min_first : FitRequest :=
  {| resume := Some "My resume";
     preferences := Some [("min", JInt 120); ("remote", JBool true)];
     job := "Engineer" |}.

Definition absent_resume : FitRequest :=
  {| resume := None; preferences := None; job := "Engineer" |}.

Definition timeout : string -> reply :=
  fun _ => Raises "Read timed out. (read timeout=120)".

Definition empty_resume : FitRequest :=
  {| resume := Some EmptyString; preferences := None; job := "Engineer" |}.

Definition literal_no_resume : FitRequest :=
  {| resume := Some "no-resume"; preferences := None; job := "Engineer" |}.

Definition good_verdict : string := "{" +:+ q "fit_score" +:+ ": 80}".

Definition fit_80 : json := JDict [("fit_score", JInt 80)].

Definition warm : state :=
  {| CACHE := {[ cache_key remote_first := fit_80 ]}; calls := [] |}.

Definition chatty : string -> reply := fun _ => Generated "not json at all".

Definition other_request : FitRequest :=
  {| resume := Some "Another resume"; preferences := None; job := "Analyst" |}.

Definition unclosed : string := "fit_score: {".

Definition unquoted : string := "Sure! {fit_score: 80}".

Definition wrapped : string :=
  "Sure! {" +:+ q "fit_score" +:+ ": 80} Hope that helps!".

(** ** Measures used in the further properties *)

(** A lowercase hexadecimal digit: [0-9a-f]. *)
Definition is_lower_hex (c : ascii) : bool :=
  let n := Py.ord c in ((48 <=? n) && (n <=? 57)) || ((97 <=? n) && (n <=? 102)).

(** Whether every character of [s] passes [p]. *)
Fixpoint all_chars (p : ascii -> bool) (s : string) : bool :=
  match s with
  | EmptyString => true
  | String c s' => p c && all_chars p s'
  end.

(** How many of the calls are calls to the model backend. *)
Fixpoint gateway_calls (cs : list call) : nat :=
  match cs with
  | [] => 0
  | ModelGateway _ :: cs' => S (gateway_calls cs')
  | _ :: cs' => gateway_calls cs'
  end.

(** ** More requests and replies for the examples *)

Definition braces_in_resume : FitRequest :=
  {| resume := Some ("Data engineer" +:+ "{}"); preferences := None; job := "Engineer" |}.

Definition braces_in_job : FitRequest :=
  {| resume := Some "Data engineer"; preferences := None; job := "{}" +:+ "Engineer" |}.

Definition job_remote : FitRequest :=
  {| resume := Some "My resume"; preferences := None; job := fifty +:+ " Remote." |}.

Definition job_on_site : FitRequest :=
  {| resume := Some "My resume"; preferences := None; job := fifty +:+ " On site." |}.

Definition reversed_braces : string := "} {".

Definition answers (text : string) : string -> reply := fun _ => Generated text.

(** * Properties *)

(** ** SHA-256 test vectors *)

(** The test vectors of FIPS 180-4: the empty message, one block, two
    blocks. *)
Example sha256_empty :
  SHA256.hexdigest (Py.encode EmptyString)
  = "e3b0c44298fc1c149afbf4c8996fb92427ae41e4649b934ca495991b7852b855".
Proof. vm_compute. reflexivity. Qed.

Example sha256_abc :
  SHA256.hexdigest (Py.encode "abc")
  = "ba7816bf8f01cfea414140de5dae2223b00361a396177a9cb410ff61f20015ad".
Proof. vm_compute. reflexivity. Qed.

Example sha256_two_blocks :
  SHA256.hexdigest
    (Py.encode "abcdbcdecdefdefgefghfghighijhijkijkljklmklmnlmnomnopnopq")
  = "248d6a61d20638b8e5c026930c3e6039a33ce45964ff2167f6ecedd419db06c1".
Proof. vm_compute. reflexivity. Qed.

(** ** Decimal digits *)

Lemma digits_fuel (f k : nat) (n : Z) (acc : string) :
  0 <= n < 2 ^ (Z.of_nat f + 1) ->
  Py.digits (S f) n acc = Py.digits (S f + k) n acc.
Proof.
  revert n acc. induction f as [|f IH]; intros n acc Hn.
  - cbn [Py.digits Nat.add].
    destruct (n <? 10) eqn:E; [reflexivity |].
    apply Z.ltb_ge in E. simpl in Hn. lia.
  - cbn [Py.digits Nat.add]. destruct (n <? 10) eqn:E; [reflexivity |].
    apply (IH (n / 10)). split; [apply Z.div_pos; lia |].
    apply Z.div_lt_upper_bound; [lia |].
    replace (Z.of_nat (S f) + 1) with (Z.succ (Z.of_nat f + 1)) in Hn by lia.
    rewrite Z.pow_succ_r in Hn by lia. lia.
Qed.

(** The fuel that [str_int] gives is enough: more fuel changes nothing. *)
Lemma str_int_fuel (n : Z) (k : nat) :
  0 <= n ->
  Py.digits (Z.to_nat (Z.log2 n) + 1 + k) n EmptyString = Py.str_int n.
Proof.
  intros Hn. unfold Py.str_int.
  destruct (n <? 0) eqn:E; [apply Z.ltb_lt in E; lia |].
  rewrite !Nat.add_1_r. symmetry. apply digits_fuel.
  rewrite Z2Nat.id by apply Z.log2_nonneg.
  destruct (Z.eq_dec n 0) as [->|Hz]; [simpl; lia |].
  pose proof (Z.log2_spec n ltac:(lia)) as [_ H].
  rewrite <- Z.add_1_r in H. lia.
Qed.

(** ** The decoder *)

Example dumps_preferences :
  JSON.dumps (JDict [("remote", JBool true); ("min", JInt 120); ("tags", JList [JStr "a"; JNull])])
  = "{" +:+ q "remote" +:+ ": true, " +:+ q "min" +:+ ": 120, " +:+ q "tags"
    +:+ ": [" +:+ q "a" +:+ ", null]}".
Proof. vm_compute. reflexivity. Qed.

Example loads_good_verdict : JSON.loads good_verdict = Some fit_80.
Proof. vm_compute. reflexivity. Qed.

Example loads_rejects :
  JSON.loads EmptyString = None /\ JSON.loads unclosed = None /\
  JSON.loads unquoted = None /\ JSON.loads "{fit_score: 80}" = None /\
  JSON.loads wrapped = None /\ JSON.loads "not json at all" = None.
Proof. repeat split; vm_compute; reflexivity. Qed.

#[local] Abbreviation L := String.length.

Lemma skip_ws_le (s : string) : (L (JSON.skip_ws s) <= L s)%nat.
Proof.
  induction s as [|c s IH]; simpl; [lia |].
  destruct (JSON.is_ws c); simpl; lia.
Qed.

Lemma cons_char_lt (c : ascii) (o : option (string * string)) (n : nat) k r :
  (forall k' r', o = Some (k', r') -> (L r' < n)%nat) ->
  JSON.cons_char c o = Some (k, r) -> (L r < n)%nat.
Proof. intros H. destruct o as [[k' r']|]; simpl; [| discriminate]. intros [= <- <-]. by apply (H k'). Qed.

Lemma scanstring_lt (s k r : string) :
  JSON.scanstring s = Some (k, r) -> (L r < L s)%nat.
Proof.
  assert (G : forall n s, (L s <= n)%nat -> forall k r,
            JSON.scanstring s = Some (k, r) -> (L r < L s)%nat); [| by apply (G (L s))].
  clear. induction n as [|n IHn]; intros s Hn k r.
  { destruct s; [discriminate | simpl in Hn; lia]. }
  assert (IH : forall t, (L t < L s)%nat -> forall k r,
            JSON.scanstring t = Some (k, r) -> (L r < L t)%nat)
    by (intros t Ht; apply IHn; lia).
  clear IHn Hn. destruct s as [|c s']; simpl; [discriminate |].
  destruct (Ascii.eqb c Py.quote); [intros [= <- <-]; simpl; lia |].
  destruct (Ascii.eqb c Py.backslash).
  - destruct s' as [|e s'']; [discriminate |].
    destruct (Ascii.eqb e "u").
    + destruct s'' as [|h1 [|h2 [|h3 [|h4 t]]]]; try discriminate.
      destruct (JSON.decode_uXXXX h1 h2 h3 h4); [| discriminate].
      apply cons_char_lt. intros k' r' E. apply IH in E; simpl in *; lia.
    + destruct (JSON.unescape e); [| discriminate].
      apply cons_char_lt. intros k' r' E. apply IH in E; simpl in *; lia.
  - destruct (Py.ord c <? 32); [discriminate |].
    apply cons_char_lt. intros k' r' E. apply IH in E; simpl in *; lia.
Qed.

Lemma scan_digits_le (s : string) (acc : Z) : (L (snd (JSON.scan_digits s acc)) <= L s)%nat.
Proof.
  revert acc. induction s as [|c s IH]; intros acc; simpl; [lia |].
  destruct (JSON.is_digit c); simpl; [| lia]. specialize (IH (10 * acc + (Py.ord c - 48))). lia.
Qed.

Lemma scan_number_lt (s : string) (v : json) (r : string) :
  JSON.scan_number s = Some (v, r) -> (L r < L s)%nat.
Proof.
  unfold JSON.scan_number.
  assert (G : forall s1 n rest, JSON.scan_int s1 = Some (n, rest) -> (L rest < L s1)%nat).
  { intros [|c s1] n rest; simpl; [discriminate |].
    destruct (Ascii.eqb c "0"); [intros [= <- <-]; simpl; lia |].
    destruct (JSON.is_digit c) eqn:D; [| discriminate].
    intros [= E]. pose proof (scan_digits_le s1 (10 * 0 + (Py.ord c - 48))) as H.
    rewrite E in H. simpl in H. lia. }
  destruct s as [|c s']; simpl.
  - discriminate.
  - destruct (Ascii.eqb c "-").
    + destruct (JSON.scan_int s') as [[n rest]|] eqn:E; [| discriminate].
      destruct (JSON.float_tail rest); [discriminate |].
      intros [= <- <-]. apply G in E. lia.
    + destruct (JSON.scan_int (String c s')) as [[n rest]|] eqn:E; [| discriminate].
      destruct (JSON.float_tail rest); [discriminate |].
      intros [= <- <-]. apply G in E. simpl in E. lia.
Qed.

Lemma strip_prefix_len (p s r : string) :
  JSON.strip_prefix p s = Some r -> (L r + L p = L s)%nat.
Proof.
  revert s. induction p as [|a p IH]; intros [|b s]; simpl; try discriminate.
  - intros [= <-]. simpl. lia.
  - intros [= <-]. simpl. lia.
  - destruct (Ascii.eqb a b); [| discriminate]. intros E. apply IH in E. lia.
Qed.

(** Length facts from the equations at hand. *)
Ltac lens :=
  repeat match goal with
  | H : JSON.skip_ws ?a = _ |- _ => apply (f_equal String.length) in H; simpl in H
  | H : JSON.scanstring ?a = Some _ |- _ => apply scanstring_lt in H; simpl in H
  | H : JSON.scan_number ?a = Some _ |- _ => apply scan_number_lt in H; simpl in H
  | H : JSON.strip_prefix _ ?a = Some _ |- _ => apply strip_prefix_len in H; simpl in H
  end;
  repeat match goal with
  | H : context [JSON.skip_ws ?a] |- _ =>
      lazymatch goal with
      | _ : (String.length (JSON.skip_ws a) <= String.length a)%nat |- _ => fail
      | _ => pose proof (skip_ws_le a)
      end
  | |- context [JSON.skip_ws ?a] =>
      lazymatch goal with
      | _ : (String.length (JSON.skip_ws a) <= String.length a)%nat |- _ => fail
      | _ => pose proof (skip_ws_le a)
      end
  end;
  simpl in *; try lia.

Ltac split_match_hyp H :=
  repeat match type of H with
  | context [match ?x with _ => _ end] => destruct x eqn:?; try discriminate H
  | context [if ?x then _ else _] => destruct x eqn:?; try discriminate H
  end.

Lemma parse_consumes (f : nat) :
  (forall s v r, JSON.value f s = Some (v, r) -> (L r < L s)%nat) /\
  (forall s acc d r, JSON.members f s acc = Some (d, r) -> (L r < L s)%nat) /\
  (forall s l r, JSON.elements f s = Some (l, r) -> (L r < L s)%nat).
Proof.
  induction f as [|f (IHv & IHm & IHe)]; [repeat split; intros; discriminate |].
  repeat split.
  - intros s v r H. cbn [JSON.value] in H. split_match_hyp H;
      try (injection H as <- <-);
      repeat match goal with
      | E : JSON.members f _ _ = Some _ |- _ => apply IHm in E
      | E : JSON.elements f _ = Some _ |- _ => apply IHe in E
      end; lens.
  - intros s acc d r H. cbn [JSON.members] in H. split_match_hyp H;
      try (injection H as <- <-);
      repeat match goal with
      | E : JSON.members f _ _ = Some _ |- _ => apply IHm in E
      | E : JSON.value f _ = Some _ |- _ => apply IHv in E
      end; lens.
  - intros s l r H. cbn [JSON.elements] in H. split_match_hyp H;
      try (injection H as <- <-);
      repeat match goal with
      | E : JSON.elements f _ = Some _ |- _ => apply IHe in E
      | E : JSON.value f _ = Some _ |- _ => apply IHv in E
      end; lens.
Qed.

Ltac lens' :=
  repeat match goal with
  | H : JSON.value _ _ = Some (_, _) |- _ => apply (proj1 (parse_consumes _)) in H
  | H : JSON.members _ _ _ = Some (_, _) |- _ => apply (proj1 (proj2 (parse_consumes _))) in H
  | H : JSON.elements _ _ = Some (_, _) |- _ => apply (proj2 (proj2 (parse_consumes _))) in H
  end; lens.

Ltac walk f f' IHv IHm IHe :=
  repeat first
    [ reflexivity
    | match goal with
      | |- context [JSON.members f ?a ?b] => rewrite (IHm f' a b) by lens'
      | |- context [JSON.elements f ?a] => rewrite (IHe f' a) by lens'
      | |- context [JSON.value f ?a] => rewrite (IHv f' a) by lens'
      end
    | match goal with
      | |- context [match ?x with _ => _ end] =>
          lazymatch x with
          | context [f] => fail
          | _ => destruct x eqn:?
          end
      end ].

Lemma fuel_enough (f : nat) :
  (forall f' s, (2 * L s < f)%nat -> (2 * L s < f')%nat ->
     JSON.value f s = JSON.value f' s) /\
  (forall f' s acc, (2 * L s < f)%nat -> (2 * L s < f')%nat ->
     JSON.members f s acc = JSON.members f' s acc) /\
  (forall f' s, (2 * L s + 1 < f)%nat -> (2 * L s + 1 < f')%nat ->
     JSON.elements f s = JSON.elements f' s).
Proof.
  induction f as [|f (IHv & IHm & IHe)]; [repeat split; intros; lia |].
  repeat split.
  - intros [|f'] s Hf Hf'; [lia |]. cbn [JSON.value]. walk f f' IHv IHm IHe.
  - intros [|f'] s acc Hf Hf'; [lia |]. cbn [JSON.members]. walk f f' IHv IHm IHe.
  - intros [|f'] s Hf Hf'; [lia |]. cbn [JSON.elements]. walk f f' IHv IHm IHe.
Qed.

(** The fuel that [loads] gives is enough: more fuel changes nothing. *)
Lemma loads_fuel (s : string) (k : nat) :
  JSON.value (2 * L s + 2 + k) (JSON.skip_ws s)
  = JSON.value (2 * L s + 2) (JSON.skip_ws s).
Proof.
  pose proof (skip_ws_le s).
  apply (proj1 (fuel_enough _)); lia.
Qed.

(** ** Facts about slices *)

#[local] Arguments String.append !s1 s2 : simpl nomatch.

Lemma take_ge (n : nat) (s : string) :
  (String.length s <= n)%nat -> Py.take n s = s.
Proof.
  revert n. induction s as [|c s IH]; intros [|n] H; simpl in *; try reflexivity.
  - lia.
  - f_equal. apply IH. lia.
Qed.

Lemma take_take_length (n : nat) (s : string) :
  Py.take (Nat.min n (String.length s)) s = Py.take n s.
Proof.
  destruct (Nat.le_gt_cases n (String.length s)) as [H|H].
  - by rewrite Nat.min_l.
  - rewrite Nat.min_r by lia.
    rewrite (take_ge (String.length s) s) by lia.
    rewrite (take_ge n s) by lia. reflexivity.
Qed.

Lemma take_app_length (p t : string) : Py.take (String.length p) (p +:+ t) = p.
Proof. induction p as [|c p IH]; simpl; [by destruct t | by rewrite IH]. Qed.

(** [s[:n]] is the first [n] characters of [s], or all of [s]. *)
Lemma slice_to_take (s : string) (n : Z) :
  0 <= n -> Py.slice_to s n = Py.take (Z.to_nat n) s.
Proof.
  intros Hn. unfold Py.slice_to, Py.slice, Py.clamp, Py.len.
  replace (0 <? 0) with false by reflexivity.
  destruct (n <? 0) eqn:E; [apply Z.ltb_lt in E; lia |].
  rewrite (Z.min_l 0) by lia. rewrite Z.sub_0_r.
  replace (Py.drop (Z.to_nat 0) s) with s by reflexivity.
  rewrite <- (take_take_length (Z.to_nat n) s). f_equal. lia.
Qed.

Lemma slice_to_cons (c : ascii) (s : string) :
  Py.slice_to (String c s) 50 = String c (Py.take 49 s).
Proof. rewrite slice_to_take by lia. reflexivity. Qed.

(** ** The cache key *)

Lemma resume_part_present (data : FitRequest) (s : string) :
  resume data = Some s ->
  resume_part data = if Py.truthy s then Py.slice_to s 50 else "no-resume".
Proof. unfold resume_part. intros ->. by destruct s. Qed.

Lemma resume_part_slice (r1 r2 : FitRequest) (s1 s2 : string) :
  resume r1 = Some s1 -> resume r2 = Some s2 ->
  Py.slice_to s1 50 = Py.slice_to s2 50 ->
  resume_part r1 = resume_part r2.
Proof.
  intros H1 H2 Hs.
  rewrite (resume_part_present r1 s1 H1), (resume_part_present r2 s2 H2).
  destruct s1 as [|c1 s1], s2 as [|c2 s2]; simpl; try reflexivity; try exact Hs.
  - rewrite slice_to_cons in Hs. discriminate Hs.
  - rewrite slice_to_cons in Hs. discriminate Hs.
Qed.

(** The key is made of [resume_part], the serialized preferences and the
    job text, and of nothing else. *)
Lemma cache_key_ext (r1 r2 : FitRequest) :
  resume_part r1 = resume_part r2 ->
  preferences r1 = preferences r2 ->
  job r1 = job r2 ->
  cache_key r1 = cache_key r2.
Proof.
  intros Hr Hp Hj. unfold cache_key, preferences_json.
  by rewrite Hr, Hp, Hj.
Qed.

(** C6. Two requests whose resumes are both present and agree on their
    first 50 characters, with the same preferences and the same job text,
    have the same cache key: the key is a function of these inputs. *)
Theorem cache_key_deterministic (r1 r2 : FitRequest) (s1 s2 : string) :
  resume r1 = Some s1 -> resume r2 = Some s2 ->
  Py.slice_to s1 50 = Py.slice_to s2 50 ->
  preferences r1 = preferences r2 ->
  job r1 = job r2 ->
  cache_key r1 = cache_key r2.
Proof.
  intros H1 H2 Hs Hp Hj.
  apply cache_key_ext; [exact (resume_part_slice r1 r2 s1 s2 H1 H2 Hs) | exact Hp | exact Hj].
Qed.

(** C7. Two requests whose resumes share their first 50 characters and
    differ after them, with the same preferences and the same job text,
    are different requests with the same cache key. *)
Theorem cache_key_ignores_resume_tail (r1 r2 : FitRequest) (p t1 t2 : string) :
  String.length p = 50%nat -> t1 <> t2 ->
  resume r1 = Some (p +:+ t1) -> resume r2 = Some (p +:+ t2) ->
  preferences r1 = preferences r2 ->
  job r1 = job r2 ->
  resume r1 <> resume r2 /\ cache_key r1 = cache_key r2.
Proof.
  intros Hp Ht H1 H2 Hpr Hj. split.
  - rewrite H1, H2. intros [= E]. apply Ht.
    clear -E. induction p as [|c p IH]; simpl in E; [exact E | injection E as E; auto].
  - apply cache_key_ext; [| exact Hpr | exact Hj].
    apply (resume_part_slice r1 r2 _ _ H1 H2).
    rewrite !slice_to_take by lia. change (Z.to_nat 50) with 50%nat.
    rewrite <- Hp. by rewrite !take_app_length.
Qed.

Lemma cache_key_deterministic_witness :
  cache_key resume_a = cache_key resume_b.
Proof.
  apply (cache_key_deterministic resume_a resume_b
           (fifty +:+ "; Airflow") (fifty +:+ "; dbt and Terraform"));
    reflexivity.
Defined.

Lemma cache_key_ignores_resume_tail_witness :
  resume resume_a <> resume resume_b /\ cache_key resume_a = cache_key resume_b.
Proof.
  apply (cache_key_ignores_resume_tail resume_a resume_b fifty
           "; Airflow" "; dbt and Terraform");
    [reflexivity | discriminate | reflexivity | reflexivity | reflexivity | reflexivity].
Defined.

Example cache_key_remote_first :
  cache_key remote_first
  = "a20f49f3075073c2b993d225ff99c9aa25857db62016515dcc0fd741603d54b2".
Proof. vm_compute. reflexivity. Qed.

(** C10. Two requests with the same resume and job text, and preferences
    holding the same items in a different order, can have different cache
    keys: [json.dumps] writes the items in insertion order. *)
Theorem cache_key_depends_on_preferences_order :
  exists (r1 r2 : FitRequest) (d1 d2 : JSON.dict),
    resume r1 = resume r2 /\ job r1 = job r2 /\
    preferences r1 = Some d1 /\ preferences r2 = Some d2 /\
    NoDup (map fst d1) /\ d1 ≡ₚ d2 /\ d1 <> d2 /\
    cache_key r1 <> cache_key r2.
Proof.
  exists remote_first, min_first,
    [("remote", JBool true); ("min", JInt 120)],
    [("min", JInt 120); ("remote", JBool true)].
  repeat split.
  - repeat constructor; simpl; intros H; inversion H; try discriminate.
    match goal with H' : _ ∈ [] |- _ => inversion H' end.
  - apply perm_swap.
  - discriminate.
  - vm_compute. discriminate.
Qed.

(** ** Facts about [find] and [rfind] *)

Lemma find_from_occurs (c : ascii) (s : string) (i : Z) :
  0 <= i ->
  if occurs c s then i <= Py.find_from c s i else Py.find_from c s i = -1.
Proof.
  revert i. induction s as [|d s IH]; intros i Hi; simpl; [reflexivity |].
  destruct (Ascii.eqb d c); simpl; [lia |].
  specialize (IH (i + 1) ltac:(lia)). destruct (occurs c s); lia.
Qed.

Lemma find_none_occurs (c : ascii) (s : string) :
  Py.find s c = -1 <-> occurs c s = false.
Proof.
  unfold Py.find. pose proof (find_from_occurs c s 0 ltac:(lia)) as H.
  destruct (occurs c s); split; intros E; try done; lia.
Qed.

Lemma rfind_from_ge (c : ascii) (s : string) (i last : Z) :
  0 <= i -> -1 <= last -> -1 <= Py.rfind_from c s i last.
Proof.
  revert i last. induction s as [|d s IH]; intros i last Hi Hl; simpl; [exact Hl |].
  apply IH; [lia |]. destruct (Ascii.eqb d c); lia.
Qed.

Lemma rfind_from_absent (c : ascii) (s : string) (i last : Z) :
  occurs c s = false -> Py.rfind_from c s i last = last.
Proof.
  revert i last. induction s as [|d s IH]; intros i last H; simpl in *; [reflexivity |].
  apply orb_false_iff in H as [-> H]. by apply IH.
Qed.

Lemma rfind_none_occurs (c : ascii) (s : string) :
  Py.rfind s c = -1 <-> occurs c s = false.
Proof.
  unfold Py.rfind. split; [| apply rfind_from_absent].
  assert (G : forall t i last, 0 <= i -> -1 <= last ->
            Py.rfind_from c t i last = -1 -> occurs c t = false).
  { induction t as [|d t IH]; intros i last Hi Hl E; simpl in *; [reflexivity |].
    destruct (Ascii.eqb d c); simpl.
    - pose proof (rfind_from_absent c t (i + 1) i) as A.
      destruct (occurs c t) eqn:O.
      + assert (last' : -1 <= i) by lia.
        specialize (IH (i + 1) i ltac:(lia) last' E). congruence.
      + rewrite A in E by reflexivity. lia.
    - apply (IH (i + 1) last); [lia | lia | exact E]. }
  apply (G s 0 (-1)); lia.
Qed.

(** [rfind] answers -1 at the least, so [rfind + 1] is never -1. *)
Lemma rfind_succ_ne (s : string) (c : ascii) : Py.rfind s c + 1 <> -1.
Proof.
  pose proof (rfind_from_ge c s 0 (-1) ltac:(lia) ltac:(lia)) as H.
  unfold Py.rfind. lia.
Qed.

Lemma length_app (s t : string) :
  String.length (s +:+ t) = (String.length s + String.length t)%nat.
Proof. induction s as [|c s IH]; simpl; [reflexivity | by rewrite IH]. Qed.

Lemma drop_app_length (p t : string) : Py.drop (String.length p) (p +:+ t) = t.
Proof. induction p as [|c p IH]; simpl; [by destruct t | exact IH]. Qed.

Lemma app_assoc_string (a b c : string) : (a +:+ b) +:+ c = a +:+ (b +:+ c).
Proof. induction a as [|x a IH]; simpl; [reflexivity | by rewrite IH]. Qed.

Lemma find_app_first (c : ascii) (pre rest : string) :
  occurs c pre = false ->
  Py.find (pre +:+ String c rest) c = Py.len pre.
Proof.
  unfold Py.find, Py.len. intros H.
  assert (G : forall i, Py.find_from c (pre +:+ String c rest) i
                        = i + Z.of_nat (String.length pre)).
  { induction pre as [|d pre IH]; intros i; simpl in *.
    - rewrite Ascii.eqb_refl. lia.
    - apply orb_false_iff in H as [-> H]. rewrite (IH H). lia. }
  rewrite G. lia.
Qed.

Lemma rfind_app_last (c : ascii) (body post : string) :
  occurs c post = false ->
  Py.rfind (body +:+ String c post) c = Py.len body.
Proof.
  unfold Py.rfind, Py.len. intros H.
  assert (G : forall i last, Py.rfind_from c (body +:+ String c post) i last
                             = i + Z.of_nat (String.length body)).
  { induction body as [|d body IH]; intros i last; simpl.
    - rewrite Ascii.eqb_refl. rewrite rfind_from_absent by exact H. lia.
    - rewrite IH. lia. }
  rewrite G. lia.
Qed.

(** The slice from the first opening brace to the last closing brace of
    a text that has them in this order. *)
Lemma slice_braces (pre mid post : string) :
  let text := pre +:+ String "{" (mid +:+ String "}" post) in
  occurs "{" pre = false -> occurs "}" post = false ->
  Py.slice text (Py.find text "{"%char) (Py.rfind text "}"%char + 1)
  = String "{" (mid +:+ String "}" EmptyString).
Proof.
  intros text Hpre Hpost.
  assert (Hf : Py.find text "{"%char = Py.len pre) by (by apply find_app_first).
  assert (Hr : Py.rfind text "}"%char = Py.len (pre +:+ String "{" mid)).
  { unfold text.
    replace (pre +:+ String "{" (mid +:+ String "}" post))
      with ((pre +:+ String "{" mid) +:+ String "}" post)
      by (rewrite app_assoc_string; reflexivity).
    by apply rfind_app_last. }
  rewrite Hf, Hr. unfold Py.slice, Py.clamp, Py.len, text.
  rewrite !length_app. simpl String.length. rewrite !length_app. simpl String.length.
  set (a := String.length pre). set (b := String.length mid). set (c := String.length post).
  destruct (Z.of_nat a <? 0) eqn:E1; [apply Z.ltb_lt in E1; lia |].
  destruct (Z.of_nat (a + S b) + 1 <? 0) eqn:E2; [apply Z.ltb_lt in E2; lia |].
  rewrite !Z.min_l by lia.
  rewrite Nat2Z.id. unfold a. rewrite drop_app_length.
  replace (Z.to_nat (Z.of_nat (String.length pre + S b) + 1 - Z.of_nat (String.length pre)))
    with (String.length (String "{" (mid +:+ String "}" EmptyString)))
    by (simpl; rewrite length_app; simpl; lia).
  replace (String "{" (mid +:+ String "}" post))
    with (String "{" (mid +:+ String "}" EmptyString) +:+ post)
    by (simpl; rewrite app_assoc_string; reflexivity).
  apply take_app_length.
Qed.

(** A slice that stops at 0 from a start that is not negative is empty. *)
Lemma slice_stop_0 (s : string) (start : Z) :
  0 <= start -> Py.slice s start 0 = EmptyString.
Proof.
  intros H. unfold Py.slice, Py.clamp, Py.len.
  destruct (start <? 0) eqn:E; [apply Z.ltb_lt in E; lia |].
  replace (0 <? 0) with false by reflexivity.
  replace (Z.to_nat (Z.min 0 (Z.of_nat (String.length s))
                     - Z.min start (Z.of_nat (String.length s)))) with 0%nat by lia.
  reflexivity.
Qed.

(** ** The verdict parser *)

Section Parser.

Variable json_loads : string -> option json.

(** Text that parses is returned as parsed. *)
Lemma parse_verdict_direct (text : string) (v : json) :
  json_loads text = Some v -> parse_verdict json_loads text = inl v.
Proof. unfold parse_verdict. by intros ->. Qed.

(** Text that does not parse and has no opening brace gives the
    sentinel. *)
Lemma parse_verdict_no_open_brace (text : string) :
  json_loads text = None -> occurs "{" text = false ->
  parse_verdict json_loads text = inl (invalid_json text).
Proof.
  unfold parse_verdict. intros -> H.
  apply find_none_occurs in H. by rewrite H.
Qed.

(** Text that does not parse and has an opening brace is parsed again
    from that brace on: the test on [end] never sends it to the
    sentinel, and the second [json.loads] is not guarded. *)
Lemma parse_verdict_open_brace (text : string) :
  json_loads text = None -> occurs "{" text = true ->
  let doc := Py.slice text (Py.find text "{"%char) (Py.rfind text "}"%char + 1) in
  parse_verdict json_loads text
  = match json_loads doc with
    | Some v => inl v
    | None => inr (JSONDecodeError doc)
    end.
Proof.
  unfold parse_verdict. intros -> H.
  destruct (Py.find text "{"%char =? -1) eqn:E.
  - apply Z.eqb_eq, find_none_occurs in E. congruence.
  - destruct (Py.rfind text "}"%char + 1 =? -1) eqn:E'.
    + apply Z.eqb_eq in E'. by apply rfind_succ_ne in E'.
    + reflexivity.
Qed.

(** JSON wrapped in prose: the text from the first opening brace to
    the last closing brace is what gets parsed. *)
Lemma parse_verdict_wrapped (pre mid post : string) (v : json) :
  let text := pre +:+ String "{" (mid +:+ String "}" post) in
  occurs "{" pre = false -> occurs "}" post = false ->
  json_loads text = None ->
  json_loads (String "{" (mid +:+ String "}" EmptyString)) = Some v ->
  parse_verdict json_loads text = inl v.
Proof.
  intros text Hpre Hpost Hnone Hsome.
  assert (Ho : occurs "{" text = true).
  { unfold text. clear -Hpre. induction pre as [|d pre IH]; simpl in *; [reflexivity |].
    apply orb_false_iff in Hpre as [-> Hpre]. by apply IH. }
  rewrite (parse_verdict_open_brace text Hnone Ho).
  unfold text. rewrite (slice_braces pre mid post Hpre Hpost). by rewrite Hsome.
Qed.

(** An opening brace with no closing brace after the text failed to
    parse: [end] is 0, the slice is empty, and the second [json.loads]
    is the one that decides. *)
Lemma parse_verdict_unclosed (text : string) :
  json_loads text = None -> occurs "{" text = true -> occurs "}" text = false ->
  json_loads EmptyString = None ->
  parse_verdict json_loads text = inr (JSONDecodeError EmptyString).
Proof.
  intros Hnone Ho Hc Hempty.
  rewrite (parse_verdict_open_brace text Hnone Ho).
  apply rfind_none_occurs in Hc. rewrite Hc. simpl (-1 + 1).
  rewrite slice_stop_0.
  - by rewrite Hempty.
  - pose proof (find_from_occurs "{" text 0 ltac:(lia)) as H.
    rewrite Ho in H. exact H.
Qed.

End Parser.

(** ** The handler *)

Section HandlerFacts.

Variable json_loads : string -> option json.

Lemma job_fit_hit (ollama : string -> reply) (req : FitRequest) (st : state)
    (c : ascii) (r : string) (v : json) :
  resume req = Some (String c r) ->
  CACHE st !! cache_key req = Some v ->
  job_fit json_loads ollama req st = (Return v, called [CacheGet (cache_key req)] st).
Proof. intros Hr Hc. unfold job_fit. rewrite Hr. cbv beta iota zeta. by rewrite Hc. Qed.

(** An entry of the cache is never removed nor overwritten. *)
Lemma job_fit_keeps_entries (ollama : string -> reply) (req : FitRequest)
    (st : state) (k : string) (v : json) :
  CACHE st !! k = Some v ->
  CACHE (snd (job_fit json_loads ollama req st)) !! k = Some v.
Proof.
  intros Hk. unfold job_fit.
  destruct (resume req) as [[|c r]|]; try exact Hk.
  cbv beta iota zeta.
  destruct (CACHE st !! cache_key req) eqn:Hc; [exact Hk |].
  destruct (ollama _); [exact Hk |].
  destruct (parse_verdict json_loads text); [| exact Hk].
  cbn [snd CACHE]. rewrite lookup_insert_ne; [exact Hk |].
  intros E. rewrite E in Hc. congruence.
Qed.

Lemma serve_keeps_entries (rs : list ((string -> reply) * FitRequest))
    (st : state) (k : string) (v : json) :
  CACHE st !! k = Some v -> CACHE (serve json_loads rs st) !! k = Some v.
Proof.
  revert st. induction rs as [|[ollama req] rs IH]; intros st Hk; simpl; [exact Hk |].
  apply IH. by apply job_fit_keeps_entries.
Qed.

End HandlerFacts.

(** C4. A request without a resume is answered at once with status 200
    and the body [{"error": "Resume text is required"}]: whatever the
    cache holds and whatever the backend would do, the state is left as it
    was, with no cache lookup and no call to the backend logged. *)
Theorem job_fit_resume_absent (json_loads : string -> option json)
    (ollama : string -> reply) (req : FitRequest) (st : state) :
  resume req = None ->
  job_fit json_loads ollama req st = (Return resume_required, st) /\
  status (fst (job_fit json_loads ollama req st)) = 200.
Proof. intros H. unfold job_fit. rewrite H. split; reflexivity. Qed.

Lemma job_fit_resume_absent_witness :
  job_fit JSON.loads timeout absent_resume start = (Return resume_required, start) /\
  status (fst (job_fit JSON.loads timeout absent_resume start)) = 200.
Proof. apply (job_fit_resume_absent JSON.loads timeout absent_resume start). reflexivity. Defined.

(** C8. A request whose resume is the empty string is answered like one
    without a resume: the test is on the truth value of the field. *)
Theorem job_fit_resume_empty (json_loads : string -> option json)
    (ollama : string -> reply) (req : FitRequest) (st : state) :
  resume req = Some EmptyString ->
  job_fit json_loads ollama req st = (Return resume_required, st) /\
  status (fst (job_fit json_loads ollama req st)) = 200.
Proof. intros H. unfold job_fit. rewrite H. split; reflexivity. Qed.

Lemma job_fit_resume_empty_witness :
  job_fit JSON.loads timeout empty_resume start = (Return resume_required, start) /\
  status (fst (job_fit JSON.loads timeout empty_resume start)) = 200.
Proof. apply (job_fit_resume_empty JSON.loads timeout empty_resume start). reflexivity. Defined.

(** C3. When a request with a resume misses the cache and the call to
    the backend raises, the answer is HTTP 500 with the text of that
    exception as detail, and the cache is as it was: the handler has
    looked the key up, built the prompt and called the backend, and
    nothing else. *)
Theorem job_fit_gateway_raises (json_loads : string -> option json)
    (ollama : string -> reply) (req : FitRequest) (st : state)
    (r message : string) :
  resume req = Some r -> r <> EmptyString ->
  CACHE st !! cache_key req = None ->
  ollama (prompt_of r req) = Raises message ->
  fst (job_fit json_loads ollama req st) = HTTPException 500 (GatewayError message) /\
  CACHE (snd (job_fit json_loads ollama req st)) = CACHE st /\
  calls (snd (job_fit json_loads ollama req st))
  = calls st ++ [CacheGet (cache_key req); PromptBuilder; ModelGateway (prompt_of r req)].
Proof.
  intros Hr Hne Hc Ho. unfold job_fit. rewrite Hr.
  destruct r as [|c r]; [congruence |].
  cbv beta iota zeta. rewrite Hc, Ho. repeat split.
Qed.

Lemma job_fit_gateway_raises_witness :
  fst (job_fit JSON.loads timeout remote_first start)
  = HTTPException 500 (GatewayError "Read timed out. (read timeout=120)") /\
  CACHE (snd (job_fit JSON.loads timeout remote_first start)) = CACHE start /\
  calls (snd (job_fit JSON.loads timeout remote_first start))
  = calls start ++ [CacheGet (cache_key remote_first); PromptBuilder;
                    ModelGateway (prompt_of "My resume" remote_first)].
Proof.
  apply (job_fit_gateway_raises JSON.loads timeout remote_first start "My resume").
  - reflexivity.
  - discriminate.
  - vm_compute. reflexivity.
  - reflexivity.
Defined.

(** ** Cache hits *)

(** Against C5 as stated: the key of a request without a resume can be
    in the cache, put there
    by a request whose resume is the text [no-resume]; the request
    without a resume is turned down all the same, and does not get the
    stored verdict. *)
Lemma cache_hit_without_resume :
  let ollama := fun _ : string => Generated good_verdict in
  let st := snd (job_fit JSON.loads ollama literal_no_resume start) in
  CACHE st !! cache_key absent_resume = Some fit_80 /\
  fst (job_fit JSON.loads ollama absent_resume st) <> Return fit_80.
Proof. split; [vm_compute; reflexivity | vm_compute; discriminate]. Qed.

(** C5, amended. A request with a non-empty resume whose key is in the
    cache gets the stored object as it is, with status 200: the only call
    made is the cache lookup (no prompt is built, the backend is not
    called, nothing is parsed), and the cache is as it was. *)
Theorem job_fit_cache_hit (json_loads : string -> option json)
    (ollama : string -> reply) (req : FitRequest) (st : state)
    (r : string) (stored : json) :
  resume req = Some r -> r <> EmptyString ->
  CACHE st !! cache_key req = Some stored ->
  fst (job_fit json_loads ollama req st) = Return stored /\
  CACHE (snd (job_fit json_loads ollama req st)) = CACHE st /\
  calls (snd (job_fit json_loads ollama req st))
  = calls st ++ [CacheGet (cache_key req)].
Proof.
  intros Hr Hne Hc. destruct r as [|c r]; [congruence |].
  rewrite (job_fit_hit json_loads ollama req st c r stored Hr Hc).
  repeat split.
Qed.

Lemma job_fit_cache_hit_witness :
  fst (job_fit JSON.loads timeout remote_first warm) = Return fit_80 /\
  CACHE (snd (job_fit JSON.loads timeout remote_first warm)) = CACHE warm /\
  calls (snd (job_fit JSON.loads timeout remote_first warm))
  = calls warm ++ [CacheGet (cache_key remote_first)].
Proof.
  apply (job_fit_cache_hit JSON.loads timeout remote_first warm "My resume" fit_80).
  - reflexivity.
  - discriminate.
  - vm_compute. reflexivity.
Defined.

(** ** What a completed pipeline leaves in the cache *)

(** C9. When a request with a non-empty resume misses the cache and the
    handler answers it with a body [v] (status 200), [v] is in the cache
    under the request's key afterwards, whether [v] is a verdict or the
    [invalid_json] sentinel; the same request, sent again at once or
    after any other requests, gets [v] from the cache with one cache
    lookup and no call to the backend. *)
Theorem job_fit_caches_result (json_loads : string -> option json)
    (ollama : string -> reply) (req : FitRequest) (st st' : state)
    (r : string) (v : json) :
  resume req = Some r -> r <> EmptyString ->
  CACHE st !! cache_key req = None ->
  job_fit json_loads ollama req st = (Return v, st') ->
  CACHE st' !! cache_key req = Some v /\
  forall (between : list ((string -> reply) * FitRequest)) (ollama' : string -> reply),
    let later := serve json_loads between st' in
    job_fit json_loads ollama' req later
    = (Return v, called [CacheGet (cache_key req)] later).
Proof.
  intros Hr Hne Hc Hrun. destruct r as [|c r]; [congruence |].
  assert (Hin : CACHE st' !! cache_key req = Some v).
  { unfold job_fit in Hrun. rewrite Hr in Hrun. cbv beta iota zeta in Hrun.
    rewrite Hc in Hrun. destruct (ollama _); [discriminate Hrun |].
    destruct (parse_verdict json_loads text); [| discriminate Hrun].
    injection Hrun as -> <-. cbn [CACHE]. apply lookup_insert_eq. }
  split; [exact Hin |].
  intros between ollama' later.
  apply (job_fit_hit json_loads ollama' req later c r v Hr).
  by apply serve_keeps_entries.
Qed.

Lemma job_fit_caches_result_witness :
  let st' := snd (job_fit JSON.loads chatty remote_first start) in
  CACHE st' !! cache_key remote_first = Some (invalid_json "not json at all") /\
  forall (between : list ((string -> reply) * FitRequest)) (ollama' : string -> reply),
    let later := serve JSON.loads between st' in
    job_fit JSON.loads ollama' remote_first later
    = (Return (invalid_json "not json at all"),
       called [CacheGet (cache_key remote_first)] later).
Proof.
  apply (job_fit_caches_result JSON.loads chatty remote_first start
           (snd (job_fit JSON.loads chatty remote_first start)) "My resume").
  - reflexivity.
  - discriminate.
  - vm_compute. reflexivity.
  - vm_compute. reflexivity.
Defined.

(** The sentinel is served from the cache after another request has
    been served, to a backend that would now time out. *)
Example sentinel_served_from_cache :
  let st' := snd (job_fit JSON.loads chatty remote_first start) in
  let later := serve JSON.loads [(fun _ => Generated good_verdict, other_request)] st' in
  fst (job_fit JSON.loads timeout remote_first later)
  = Return (invalid_json "not json at all").
Proof. vm_compute. reflexivity. Qed.

(** ** Parse failures that leave the handler as HTTP 500 *)

(** An exception out of the verdict parser becomes HTTP 500, with the
    cache as it was. *)
Lemma job_fit_parse_raises (json_loads : string -> option json)
    (ollama : string -> reply) (req : FitRequest) (st : state)
    (r text : string) (e : exception) :
  resume req = Some r -> r <> EmptyString ->
  CACHE st !! cache_key req = None ->
  ollama (prompt_of r req) = Generated text ->
  parse_verdict json_loads text = inr e ->
  fst (job_fit json_loads ollama req st) = HTTPException 500 e /\
  CACHE (snd (job_fit json_loads ollama req st)) = CACHE st.
Proof.
  intros Hr Hne Hc Ho Hp. unfold job_fit. rewrite Hr.
  destruct r as [|c r]; [congruence |].
  cbv beta iota zeta. rewrite Hc, Ho, Hp. split; reflexivity.
Qed.

(** Whatever decoder stands for [json.loads], as long as it rejects the
    empty document: model output that does not parse and has an opening
    brace and no closing brace is answered with HTTP 500. *)
Lemma job_fit_unclosed_brace (json_loads : string -> option json)
    (ollama : string -> reply) (req : FitRequest) (st : state)
    (r text : string) :
  json_loads EmptyString = None ->
  resume req = Some r -> r <> EmptyString ->
  CACHE st !! cache_key req = None ->
  ollama (prompt_of r req) = Generated text ->
  json_loads text = None -> occurs "{" text = true -> occurs "}" text = false ->
  status (fst (job_fit json_loads ollama req st)) = 500.
Proof.
  intros Hempty Hr Hne Hc Ho Hnone Hopen Hclose.
  pose proof (parse_verdict_unclosed json_loads text Hnone Hopen Hclose Hempty) as Hp.
  destruct (job_fit_parse_raises json_loads ollama req st r text _ Hr Hne Hc Ho Hp) as [-> _].
  reflexivity.
Qed.

(** C1, on the code. Two model outputs that are not JSON leave the
    handler as HTTP 500, with a [JSONDecodeError] as detail, and not as
    the sentinel: one has an opening brace and no closing brace, so that
    [end] is 0 and the empty slice is parsed; the other has both braces
    around text that is not JSON.  Nothing is cached for either. *)
Theorem parse_failure_answered_500 :
  let st1 := job_fit JSON.loads (fun _ => Generated unclosed) remote_first start in
  let st2 := job_fit JSON.loads (fun _ => Generated unquoted) remote_first start in
  fst st1 = HTTPException 500 (JSONDecodeError EmptyString) /\
  status (fst st1) = 500 /\ CACHE (snd st1) = ∅ /\
  fst st2 = HTTPException 500 (JSONDecodeError "{fit_score: 80}") /\
  status (fst st2) = 500 /\ CACHE (snd st2) = ∅.
Proof. repeat split; vm_compute; reflexivity. Qed.

(** C2, on the code. On the three texts of the specification the parser
    answers as the claim says: JSON is returned as parsed, JSON wrapped in
    prose is taken from the first opening brace to the last closing brace,
    and [not json at all] gives the sentinel.  A text with an opening brace
    and no closing brace has no region between braces either, and there
    the parser raises [JSONDecodeError] and gives no sentinel. *)
Theorem parse_verdict_on_examples :
  parse_verdict JSON.loads good_verdict = inl fit_80 /\
  parse_verdict JSON.loads wrapped = inl fit_80 /\
  parse_verdict JSON.loads "not json at all" = inl (invalid_json "not json at all") /\
  occurs "}" unclosed = false /\
  parse_verdict JSON.loads unclosed = inr (JSONDecodeError EmptyString) /\
  parse_verdict JSON.loads unclosed <> inl (invalid_json unclosed).
Proof. repeat split; try (vm_compute; reflexivity). vm_compute. discriminate. Qed.

(** * Further properties *)

(** ** The format of the key and what it cannot tell apart *)

Lemma hex_length (k : nat) (n : Z) : String.length (Py.hex k n) = k.
Proof.
  revert n. induction k as [|k IH]; intros n; simpl; [reflexivity |].
  rewrite length_app, IH. simpl. lia.
Qed.

Lemma all_chars_app (p : ascii -> bool) (s t : string) :
  all_chars p (s +:+ t) = all_chars p s && all_chars p t.
Proof. induction s as [|c s IH]; simpl; [reflexivity | by rewrite IH, andb_assoc]. Qed.

Lemma hex_digit_lower (n : Z) : 0 <= n < 16 -> is_lower_hex (Py.hex_digit n) = true.
Proof.
  intros H. replace n with (Z.of_nat (Z.to_nat n)) by lia.
  assert (Hm : (Z.to_nat n < 16)%nat) by lia.
  revert Hm. generalize (Z.to_nat n) as m. intros m Hm.
  do 16 (destruct m as [|m]; [reflexivity |]). lia.
Qed.

Lemma hex_lower (k : nat) (n : Z) : all_chars is_lower_hex (Py.hex k n) = true.
Proof.
  revert n. induction k as [|k IH]; intros n; simpl; [reflexivity |].
  rewrite all_chars_app, IH. simpl. rewrite andb_true_r.
  apply hex_digit_lower. change 15 with (Z.ones 4). rewrite Z.land_ones by lia.
  apply Z.mod_pos_bound. lia.
Qed.

(** X1. Whatever the request, the cache key is 64 characters long and
    every one of them is a lowercase hexadecimal digit. *)
Theorem cache_key_format (data : FitRequest) :
  String.length (cache_key data) = 64%nat /\
  all_chars is_lower_hex (cache_key data) = true.
Proof.
  unfold cache_key, SHA256.hexdigest. cbv zeta.
  destruct (SHA256.digest _) as [[[[[[[a b] c] d] e] f] g] h].
  split.
  - rewrite !length_app, !hex_length. reflexivity.
  - rewrite !all_chars_app, !hex_lower. reflexivity.
Qed.

(** X2. A request without a resume, one with an empty resume and one
    whose resume is the text [no-resume] have the same cache key, for any
    preferences and job text. *)
Theorem cache_key_no_resume_collision (p : option JSON.dict) (j : string) :
  let absent := {| resume := None; preferences := p; job := j |} in
  let empty := {| resume := Some EmptyString; preferences := p; job := j |} in
  let literal := {| resume := Some "no-resume"; preferences := p; job := j |} in
  cache_key absent = cache_key empty /\ cache_key absent = cache_key literal.
Proof. split; apply cache_key_ext; reflexivity. Qed.

Lemma take_length_le (n : nat) (s : string) : (String.length (Py.take n s) <= n)%nat.
Proof.
  revert s. induction n as [|n IH]; intros [|c s]; simpl; try lia.
  specialize (IH s). lia.
Qed.

(** X4. The part of the resume that goes into the key is never empty and
    never longer than 50 characters. *)
Theorem resume_part_bounds (data : FitRequest) :
  (1 <= String.length (resume_part data) <= 50)%nat.
Proof.
  unfold resume_part. destruct (resume data) as [[|c r]|]; try (simpl; lia).
  rewrite slice_to_cons. cbn [String.length]. pose proof (take_length_le 49 r). lia.
Qed.

Lemma slice_to_short (s : string) :
  (String.length s <= 50)%nat -> Py.slice_to s 50 = s.
Proof. intros H. rewrite slice_to_take by lia. by apply take_ge. Qed.

Lemma dumps_empty : JSON.dumps (JDict []) = "{}".
Proof. reflexivity. Qed.

(** X3. The key material is put together with nothing between its
    parts: with no preferences, moving the two characters of an empty
    object from the end of the resume to the head of the job text gives a
    different request with the same cache key. *)
Theorem cache_key_unseparated (r j : string) :
  r <> EmptyString -> (String.length r + 2 <= 50)%nat ->
  let a := {| resume := Some (r +:+ "{}"); preferences := None; job := j |} in
  let b := {| resume := Some r; preferences := None; job := "{}" +:+ j |} in
  a <> b /\ cache_key a = cache_key b.
Proof.
  intros Hr Hl a b. split.
  - intros [= _ E]. apply (f_equal String.length) in E. simpl in E. lia.
  - unfold cache_key. cbv zeta.
    apply (f_equal (fun raw => SHA256.hexdigest (Py.encode raw))).
    unfold preferences_json. cbn [preferences job or_empty a b]. rewrite dumps_empty.
    rewrite (resume_part_present a (r +:+ "{}") eq_refl).
    rewrite (resume_part_present b r eq_refl).
    destruct r as [|c r]; [congruence |]. cbn [Py.truthy String.append].
    change (String c (r +:+ "{}")) with (String c r +:+ "{}").
    rewrite !slice_to_short; [| simpl in *; lia | rewrite length_app; simpl in *; lia].
    by rewrite !app_assoc_string.
Qed.

Lemma cache_key_unseparated_witness :
  braces_in_resume <> braces_in_job /\
  cache_key braces_in_resume = cache_key braces_in_job.
Proof.
  apply (cache_key_unseparated "Data engineer" "Engineer"); [discriminate | simpl; lia].
Defined.

(** X5. The key is made from the whole job text, not from its first 50
    characters: there are two requests with the same resume and
    preferences, and job texts that agree on their first 50 characters,
    whose keys differ. *)
Theorem cache_key_uses_whole_job :
  exists r1 r2 : FitRequest,
    resume r1 = resume r2 /\ preferences r1 = preferences r2 /\
    Py.slice_to (job r1) 50 = Py.slice_to (job r2) 50 /\
    cache_key r1 <> cache_key r2.
Proof.
  exists job_remote, job_on_site. repeat split. vm_compute. discriminate.
Qed.

(** ** The three ways through a cache miss *)

Section Miss.

Variable json_loads : string -> option json.
Variable ollama : string -> reply.
Variable req : FitRequest.
Variable st : state.
Variable c : ascii.
Variable r : string.
Hypothesis Hresume : resume req = Some (String c r).
Hypothesis Hmiss : CACHE st !! cache_key req = None.

Lemma job_fit_miss_gateway (message : string) :
  ollama (prompt_of (String c r) req) = Raises message ->
  job_fit json_loads ollama req st
  = (HTTPException 500 (GatewayError message),
     called [CacheGet (cache_key req); PromptBuilder;
             ModelGateway (prompt_of (String c r) req)] st).
Proof.
  intros Ho. unfold job_fit. rewrite Hresume. cbv beta iota zeta.
  by rewrite Hmiss, Ho.
Qed.

Lemma job_fit_miss_parsed (text : string) (v : json) :
  ollama (prompt_of (String c r) req) = Generated text ->
  parse_verdict json_loads text = inl v ->
  job_fit json_loads ollama req st
  = (Return v,
     {| CACHE := <[cache_key req := v]> (CACHE st);
        calls := calls st ++
          [CacheGet (cache_key req); PromptBuilder;
           ModelGateway (prompt_of (String c r) req);
           VerdictParser text; CachePut (cache_key req)] |}).
Proof.
  intros Ho Hp. unfold job_fit. rewrite Hresume. cbv beta iota zeta.
  by rewrite Hmiss, Ho, Hp.
Qed.

Lemma job_fit_miss_raised (text : string) (e : exception) :
  ollama (prompt_of (String c r) req) = Generated text ->
  parse_verdict json_loads text = inr e ->
  job_fit json_loads ollama req st
  = (HTTPException 500 e,
     called [CacheGet (cache_key req); PromptBuilder;
             ModelGateway (prompt_of (String c r) req); VerdictParser text] st).
Proof.
  intros Ho Hp. unfold job_fit. rewrite Hresume. cbv beta iota zeta.
  by rewrite Hmiss, Ho, Hp.
Qed.

End Miss.

(** Every way through the handler, as equations on its answer. *)
Ltac job_fit_cases json_loads ollama req st :=
  let Hr := fresh "Hresume" in
  let Hc := fresh "Hcache" in
  let Ho := fresh "Hreply" in
  let Hp := fresh "Hparse" in
  let c := fresh "c" in
  let r := fresh "r" in
  let stored := fresh "stored" in
  let message := fresh "message" in
  let text := fresh "text" in
  let parsed := fresh "parsed" in
  let e := fresh "e" in
  destruct (resume req) as [[|c r]|] eqn:Hr;
  [ unfold job_fit; rewrite Hr
  | destruct (CACHE st !! cache_key req) as [stored|] eqn:Hc;
    [ rewrite (job_fit_hit json_loads ollama req st c r stored Hr Hc)
    | destruct (ollama (prompt_of (String c r) req)) as [message|text] eqn:Ho;
      [ rewrite (job_fit_miss_gateway json_loads ollama req st c r Hr Hc message Ho)
      | destruct (parse_verdict json_loads text) as [parsed|e] eqn:Hp;
        [ rewrite (job_fit_miss_parsed json_loads ollama req st c r Hr Hc text parsed Ho Hp)
        | rewrite (job_fit_miss_raised json_loads ollama req st c r Hr Hc text e Ho Hp) ] ] ]
  | unfold job_fit; rewrite Hr ].

(** X8. The handler answers with status 200 or 500 and nothing else.
    It leaves the cache as it was, or adds the body it answers under the
    request's key, which was not in the cache; an answer with status 500
    always leaves the cache as it was. *)
Theorem job_fit_outcomes (json_loads : string -> option json)
    (ollama : string -> reply) (req : FitRequest) (st : state) :
  let out := job_fit json_loads ollama req st in
  (status (fst out) = 200 \/ status (fst out) = 500) /\
  (CACHE (snd out) = CACHE st \/
   exists v, fst out = Return v /\ CACHE st !! cache_key req = None /\
             CACHE (snd out) = <[cache_key req := v]> (CACHE st)) /\
  (status (fst out) = 500 -> CACHE (snd out) = CACHE st).
Proof.
  cbv zeta. job_fit_cases json_loads ollama req st; cbn [fst snd status CACHE called];
    repeat split; try (by left); try (by right); try discriminate; try reflexivity.
  right. eauto.
Qed.

(** X13. One request makes at most one call to the model backend, and
    none when it is turned down or served from the cache: the calls it
    adds to the log include a backend call exactly when the resume is not
    empty and the key is not in the cache. *)
Theorem job_fit_calls_backend_once (json_loads : string -> option json)
    (ollama : string -> reply) (req : FitRequest) (st : state) :
  exists cs : list call,
    calls (snd (job_fit json_loads ollama req st)) = calls st ++ cs /\
    (gateway_calls cs <= 1)%nat /\
    (gateway_calls cs = 1%nat <->
     exists c r, resume req = Some (String c r) /\ CACHE st !! cache_key req = None).
Proof.
  job_fit_cases json_loads ollama req st; cbn [snd calls called].
  - exists []. rewrite app_nil_r. split; [reflexivity |]. split; [simpl; lia |].
    split; [discriminate | intros (c & r & E & _); discriminate E].
  - eexists. split; [reflexivity |]. split; [simpl; lia |].
    split; [discriminate | intros (c' & r' & _ & E); congruence].
  - eexists. split; [reflexivity |]. split; [simpl; lia |]. split; [eauto | reflexivity].
  - eexists. split; [reflexivity |]. split; [simpl; lia |]. split; [eauto | reflexivity].
  - eexists. split; [reflexivity |]. split; [simpl; lia |]. split; [eauto | reflexivity].
  - exists []. rewrite app_nil_r. split; [reflexivity |]. split; [simpl; lia |].
    split; [discriminate | intros (c & r & E & _); discriminate E].
Qed.

(** X9. Serving requests only adds to the cache: whatever requests are
    served and whatever the backend does, every entry is still there
    afterwards with the same value. *)
Theorem cache_only_grows (json_loads : string -> option json)
    (rs : list ((string -> reply) * FitRequest)) (st : state) :
  CACHE st ⊆ CACHE (serve json_loads rs st).
Proof.
  apply map_subseteq_spec. intros k v Hk. by apply serve_keeps_entries.
Qed.

Lemma job_fit_error_keeps_cache (json_loads : string -> option json)
    (ollama : string -> reply) (req : FitRequest) (st : state) :
  status (fst (job_fit json_loads ollama req st)) = 500 ->
  CACHE (snd (job_fit json_loads ollama req st)) = CACHE st.
Proof.
  job_fit_cases json_loads ollama req st; cbn [fst snd status CACHE called];
    try discriminate; reflexivity.
Qed.

(** X10. A failure is not cached. After a request with a resume is
    answered with status 500, its key is not in the cache, and the same
    request sent again goes to the backend: if the backend now generates
    text that parses to [v], the answer is [v] and [v] is cached. *)
Theorem failure_then_retry (json_loads : string -> option json)
    (ollama : string -> reply) (req : FitRequest) (st : state) (r : string) :
  resume req = Some r -> r <> EmptyString ->
  status (fst (job_fit json_loads ollama req st)) = 500 ->
  let st' := snd (job_fit json_loads ollama req st) in
  CACHE st' !! cache_key req = None /\
  forall (ollama' : string -> reply) (text : string) (v : json),
    ollama' (prompt_of r req) = Generated text ->
    parse_verdict json_loads text = inl v ->
    fst (job_fit json_loads ollama' req st') = Return v /\
    CACHE (snd (job_fit json_loads ollama' req st')) !! cache_key req = Some v.
Proof.
  intros Hr Hne H500. destruct r as [|c r]; [congruence |].
  assert (Hmiss : CACHE st !! cache_key req = None).
  { destruct (CACHE st !! cache_key req) as [stored|] eqn:Hc; [| reflexivity].
    rewrite (job_fit_hit json_loads ollama req st c r stored Hr Hc) in H500.
    discriminate H500. }
  assert (Hsame : CACHE (snd (job_fit json_loads ollama req st)) = CACHE st).
  { by apply job_fit_error_keeps_cache. }
  cbv zeta. rewrite Hsame. split; [exact Hmiss |].
  intros ollama' text v Ho Hp.
  rewrite (job_fit_miss_parsed json_loads ollama' req _ c r Hr
             ltac:(by rewrite Hsame) text v Ho Hp).
  cbn [fst snd CACHE]. split; [reflexivity | apply lookup_insert_eq].
Qed.

(** X14. An answer with status 200 is final: once a request has been
    answered with body [v], be it the rejection, a cached object or a
    fresh verdict, the same request is answered [v] again after any
    other requests, whatever the backend does by then, and answering it
    again does not change the cache. *)
Theorem answer_200_is_final (json_loads : string -> option json)
    (ollama : string -> reply) (req : FitRequest) (st : state) (v : json) :
  fst (job_fit json_loads ollama req st) = Return v ->
  forall (between : list ((string -> reply) * FitRequest)) (ollama' : string -> reply),
    let later := serve json_loads between (snd (job_fit json_loads ollama req st)) in
    fst (job_fit json_loads ollama' req later) = Return v /\
    CACHE (snd (job_fit json_loads ollama' req later)) = CACHE later.
Proof.
  intros H between ollama'. revert H.
  job_fit_cases json_loads ollama req st; cbn [fst snd]; intros H; try discriminate H.
  - split; [exact H | reflexivity].
  - injection H as <-.
    erewrite job_fit_hit; [split; reflexivity | exact Hresume |].
    apply serve_keeps_entries. exact Hcache.
  - injection H as <-.
    erewrite job_fit_hit; [split; reflexivity | exact Hresume |].
    apply serve_keeps_entries. cbn [CACHE]. apply lookup_insert_eq.
  - split; [exact H | reflexivity].
Qed.

Lemma job_fit_entry_origin (json_loads : string -> option json)
    (ollama : string -> reply) (req : FitRequest) (st : state) (k : string) (v : json) :
  CACHE (snd (job_fit json_loads ollama req st)) !! k = Some v ->
  CACHE st !! k = Some v \/
  exists c r text,
    resume req = Some (String c r) /\ k = cache_key req /\
    ollama (prompt_of (String c r) req) = Generated text /\
    parse_verdict json_loads text = inl v.
Proof.
  job_fit_cases json_loads ollama req st; cbn [snd CACHE called]; try (by left).
  intros H. destruct (decide (cache_key req = k)) as [<-|Hne].
  - rewrite lookup_insert_eq in H. injection H as <-. right. eauto 10.
  - rewrite lookup_insert_ne in H by exact Hne. by left.
Qed.

(** X11. Every entry of the cache comes from a request that was served.
    After any requests served from the empty cache, a key in the cache is
    the key of one of them, with a resume that is not empty, and its value
    is what the parser made of the text the backend generated for that
    request's prompt. *)
Theorem cache_entries_come_from_requests (json_loads : string -> option json)
    (rs : list ((string -> reply) * FitRequest)) (k : string) (v : json) :
  CACHE (serve json_loads rs start) !! k = Some v ->
  exists ollama req c r text,
    (ollama, req) ∈ rs /\
    resume req = Some (String c r) /\ k = cache_key req /\
    ollama (prompt_of (String c r) req) = Generated text /\
    parse_verdict json_loads text = inl v.
Proof.
  assert (G : forall rs st,
    CACHE (serve json_loads rs st) !! k = Some v ->
    CACHE st !! k = Some v \/
    exists ollama req c r text,
      (ollama, req) ∈ rs /\
      resume req = Some (String c r) /\ k = cache_key req /\
      ollama (prompt_of (String c r) req) = Generated text /\
      parse_verdict json_loads text = inl v).
  { clear rs. induction rs as [|[ollama req] rs IH]; intros st H; simpl in H; [by left |].
    destruct (IH _ H) as [H1 | (o & q & c & r & text & Hin & Hrest)].
    - destruct (job_fit_entry_origin json_loads ollama req st k v H1)
        as [H0 | (c & r & text & Hrest)]; [by left |].
      right. exists ollama, req, c, r, text. split; [apply elem_of_cons; by left | exact Hrest].
    - right. exists o, q, c, r, text. split; [apply elem_of_cons; by right | exact Hrest]. }
  intros H. destruct (G rs start H) as [H0 | H1]; [| exact H1].
  cbn [start CACHE] in H0. by rewrite lookup_empty in H0.
Qed.

(** ** Texts put together *)

Lemma app_inv_head_string (a x y : string) : a +:+ x = a +:+ y -> x = y.
Proof. induction a as [|c a IH]; simpl; [done |]. intros [= E]. by apply IH. Qed.

Lemma app_inv_tail_string (x y t : string) : x +:+ t = y +:+ t -> x = y.
Proof.
  revert y. induction x as [|c x IH]; intros [|d y] E; simpl in E.
  - reflexivity.
  - apply (f_equal String.length) in E. simpl in E. rewrite length_app in E. lia.
  - apply (f_equal String.length) in E. simpl in E. rewrite length_app in E. lia.
  - injection E as -> E. f_equal. by apply IH.
Qed.

(** The prompt tells resumes apart. *)
Lemma prompt_of_resume (r1 r2 : string) (q1 q2 : FitRequest) :
  preferences q1 = preferences q2 -> job q1 = job q2 ->
  prompt_of r1 q1 = prompt_of r2 q2 -> r1 = r2.
Proof.
  unfold prompt_of, PROMPT_TEMPLATE_format, preferences_json.
  intros -> -> E. apply app_inv_head_string in E.
  by apply app_inv_tail_string in E.
Qed.

(** X12. A verdict computed for one resume is served for another. When
    a request has been answered from the backend with body [v], a second
    request with the same preferences and job, whose resume has the same
    first 50 characters and differs after them, is answered [v] from the
    cache with no call to the backend, although its prompt would have
    been a different one. *)
Theorem truncated_resume_false_hit (json_loads : string -> option json)
    (ollama ollama' : string -> reply) (p t1 t2 : string)
    (prefs : option JSON.dict) (j : string) (st st' : state) (v : json) :
  String.length p = 50%nat -> t1 <> t2 ->
  let first := {| resume := Some (p +:+ t1); preferences := prefs; job := j |} in
  let second := {| resume := Some (p +:+ t2); preferences := prefs; job := j |} in
  CACHE st !! cache_key first = None ->
  job_fit json_loads ollama first st = (Return v, st') ->
  prompt_of (p +:+ t1) first <> prompt_of (p +:+ t2) second /\
  job_fit json_loads ollama' second st'
  = (Return v, called [CacheGet (cache_key second)] st').
Proof.
  intros Hp Ht first second Hmiss Hrun.
  destruct p as [|c p]; [discriminate Hp |].
  assert (Hkey : cache_key second = cache_key first).
  { apply cache_key_ext; [| reflexivity | reflexivity].
    apply (resume_part_slice second first _ _ eq_refl eq_refl).
    rewrite !slice_to_take by lia. change (Z.to_nat 50) with 50%nat.
    rewrite <- Hp. by rewrite !take_app_length. }
  split.
  - intros E. apply prompt_of_resume in E; [| reflexivity | reflexivity].
    by apply app_inv_head_string in E.
  - apply (job_fit_hit json_loads ollama' second st' c (p +:+ t2) v eq_refl).
    rewrite Hkey. revert Hrun.
    job_fit_cases json_loads ollama first st; try discriminate; try congruence.
    intros [= <- <-]. cbn [CACHE]. apply lookup_insert_eq.
Qed.

(** ** The salvage pass *)

Lemma rfind_from_app (c : ascii) (a b : string) (i last : Z) :
  Py.rfind_from c (a +:+ b) i last
  = Py.rfind_from c b (i + Py.len a) (Py.rfind_from c a i last).
Proof.
  revert i last. induction a as [|d a IH]; intros i last; simpl.
  - f_equal. unfold Py.len. simpl. lia.
  - rewrite IH. f_equal. unfold Py.len. simpl String.length. lia.
Qed.

Lemma rfind_from_lt (c : ascii) (s : string) (i last : Z) :
  last < i -> Py.rfind_from c s i last < i + Py.len s.
Proof.
  revert i last. induction s as [|d s IH]; intros i last H; simpl.
  - unfold Py.len. simpl. lia.
  - specialize (IH (i + 1) (if Ascii.eqb d c then i else last)).
    unfold Py.len in *. simpl String.length.
    destruct (Ascii.eqb d c); lia.
Qed.

(** A slice that stops at or before its start is empty. *)
Lemma slice_empty (s : string) (start stop : Z) :
  0 <= stop <= start -> Py.slice s start stop = EmptyString.
Proof.
  intros H. unfold Py.slice, Py.clamp.
  destruct (start <? 0) eqn:E1; [apply Z.ltb_lt in E1; lia |].
  destruct (stop <? 0) eqn:E2; [apply Z.ltb_lt in E2; lia |].
  replace (Z.to_nat (Z.min stop (Py.len s) - Z.min start (Py.len s))) with 0%nat by lia.
  reflexivity.
Qed.

(** With no closing brace after the first opening brace, the text that
    is parsed again is empty. *)
Lemma slice_no_closing (pre rest : string) :
  let text := pre +:+ String "{" rest in
  occurs "{" pre = false -> occurs "}" rest = false ->
  Py.slice text (Py.find text "{"%char) (Py.rfind text "}"%char + 1) = EmptyString.
Proof.
  intros text Hpre Hrest. apply slice_empty.
  unfold text. rewrite (find_app_first "{" pre rest Hpre).
  unfold Py.rfind. rewrite rfind_from_app.
  rewrite rfind_from_absent by (simpl; exact Hrest).
  pose proof (rfind_from_ge "}" pre 0 (-1) ltac:(lia) ltac:(lia)).
  pose proof (rfind_from_lt "}" pre 0 (-1) ltac:(lia)). lia.
Qed.

Lemma occurs_app_cons (c : ascii) (pre rest : string) :
  occurs c (pre +:+ String c rest) = true.
Proof.
  induction pre as [|d pre IH]; simpl; [by rewrite Ascii.eqb_refl | by rewrite IH, orb_true_r].
Qed.

(** X7. Text from the backend that does not parse and has no closing
    brace after its first opening brace (none at all, or only before it)
    makes the handler answer 500 with the [JSONDecodeError] of the empty
    document, and leaves the cache as it was: the sentinel is not
    produced, whatever decoder stands for [json.loads], as long as it
    rejects the empty document. *)
Theorem no_closing_brace_answered_500 (json_loads : string -> option json)
    (ollama : string -> reply) (req : FitRequest) (st : state)
    (r pre rest : string) :
  let text := pre +:+ String "{" rest in
  json_loads EmptyString = None ->
  resume req = Some r -> r <> EmptyString ->
  CACHE st !! cache_key req = None ->
  ollama (prompt_of r req) = Generated text ->
  json_loads text = None ->
  occurs "{" pre = false -> occurs "}" rest = false ->
  fst (job_fit json_loads ollama req st) = HTTPException 500 (JSONDecodeError EmptyString) /\
  CACHE (snd (job_fit json_loads ollama req st)) = CACHE st.
Proof.
  intros text Hempty Hr Hne Hmiss Ho Hnone Hpre Hrest.
  destruct r as [|c r]; [congruence |].
  assert (Hp : parse_verdict json_loads text = inr (JSONDecodeError EmptyString)).
  { rewrite (parse_verdict_open_brace json_loads text Hnone (occurs_app_cons "{" pre rest)).
    unfold text. rewrite (slice_no_closing pre rest Hpre Hrest). by rewrite Hempty. }
  rewrite (job_fit_miss_raised json_loads ollama req st c r Hr Hmiss text _ Ho Hp).
  split; reflexivity.
Qed.

(** X6. Text from the backend that does not parse as it is, and whose
    part from the first opening brace to the last closing brace parses
    to [v], is answered with [v] (status 200), and [v] is cached under
    the request's key: what comes before the first opening brace and after
    the last closing brace is dropped. *)
Theorem wrapped_json_is_salvaged (json_loads : string -> option json)
    (ollama : string -> reply) (req : FitRequest) (st : state)
    (r pre mid post : string) (v : json) :
  let text := pre +:+ String "{" (mid +:+ String "}" post) in
  resume req = Some r -> r <> EmptyString ->
  CACHE st !! cache_key req = None ->
  ollama (prompt_of r req) = Generated text ->
  occurs "{" pre = false -> occurs "}" post = false ->
  json_loads text = None ->
  json_loads (String "{" (mid +:+ String "}" EmptyString)) = Some v ->
  fst (job_fit json_loads ollama req st) = Return v /\
  CACHE (snd (job_fit json_loads ollama req st)) !! cache_key req = Some v.
Proof.
  intros text Hr Hne Hmiss Ho Hpre Hpost Hnone Hsome.
  destruct r as [|c r]; [congruence |].
  pose proof (parse_verdict_wrapped json_loads pre mid post v Hpre Hpost Hnone Hsome) as Hp.
  rewrite (job_fit_miss_parsed json_loads ollama req st c r Hr Hmiss text v Ho Hp).
  cbn [fst snd CACHE]. split; [reflexivity | apply lookup_insert_eq].
Qed.

(** X15. Text from the backend that does not parse and has no opening
    brace is answered with the sentinel, which holds the text as it came,
    with status 200, and the sentinel is cached under the request's key.
    This is what happens to the empty text, the one the handler takes
    when the backend's answer has no [response] field. *)
Theorem no_brace_gives_sentinel (json_loads : string -> option json)
    (ollama : string -> reply) (req : FitRequest) (st : state) (r text : string) :
  resume req = Some r -> r <> EmptyString ->
  CACHE st !! cache_key req = None ->
  ollama (prompt_of r req) = Generated text ->
  json_loads text = None -> occurs "{" text = false ->
  fst (job_fit json_loads ollama req st) = Return (invalid_json text) /\
  CACHE (snd (job_fit json_loads ollama req st)) !! cache_key req
  = Some (invalid_json text).
Proof.
  intros Hr Hne Hmiss Ho Hnone Hopen. destruct r as [|c r]; [congruence |].
  pose proof (parse_verdict_no_open_brace json_loads text Hnone Hopen) as Hp.
  rewrite (job_fit_miss_parsed json_loads ollama req st c r Hr Hmiss _ _ Ho Hp).
  cbn [fst snd CACHE]. split; [reflexivity | apply lookup_insert_eq].
Qed.

(** ** The size of the cache *)

Lemma job_fit_size (json_loads : string -> option json)
    (ollama : string -> reply) (req : FitRequest) (st : state) :
  (size (CACHE st) <= size (CACHE (snd (job_fit json_loads ollama req st)))
   <= S (size (CACHE st)))%nat.
Proof.
  job_fit_cases json_loads ollama req st; cbn [snd CACHE called]; try lia.
  rewrite map_size_insert_None by exact Hcache. lia.
Qed.

(** X16. The cache never shrinks and takes at most one entry for each
    request served: there is no eviction and no bound. *)
Theorem cache_size_bounds (json_loads : string -> option json)
    (rs : list ((string -> reply) * FitRequest)) (st : state) :
  (size (CACHE st) <= size (CACHE (serve json_loads rs st))
   <= size (CACHE st) + List.length rs)%nat.
Proof.
  revert st. induction rs as [|[ollama req] rs IH]; intros st; simpl; [lia |].
  pose proof (job_fit_size json_loads ollama req st).
  specialize (IH (snd (job_fit json_loads ollama req st))). lia.
Qed.

(** ** The further properties at work *)

Lemma wrapped_json_is_salvaged_witness :
  fst (job_fit JSON.loads (answers wrapped) remote_first start) = Return fit_80 /\
  CACHE (snd (job_fit JSON.loads (answers wrapped) remote_first start))
    !! cache_key remote_first = Some fit_80.
Proof.
  apply (wrapped_json_is_salvaged JSON.loads (answers wrapped) remote_first start
           "My resume" "Sure! " (q "fit_score" +:+ ": 80") " Hope that helps!" fit_80).
  - reflexivity.
  - discriminate.
  - vm_compute. reflexivity.
  - reflexivity.
  - reflexivity.
  - reflexivity.
  - vm_compute. reflexivity.
  - vm_compute. reflexivity.
Defined.

Lemma no_closing_brace_answered_500_witness :
  fst (job_fit JSON.loads (answers reversed_braces) remote_first start)
  = HTTPException 500 (JSONDecodeError EmptyString) /\
  CACHE (snd (job_fit JSON.loads (answers reversed_braces) remote_first start))
  = CACHE start.
Proof.
  apply (no_closing_brace_answered_500 JSON.loads (answers reversed_braces)
           remote_first start "My resume" "} " EmptyString).
  - vm_compute. reflexivity.
  - reflexivity.
  - discriminate.
  - vm_compute. reflexivity.
  - reflexivity.
  - vm_compute. reflexivity.
  - reflexivity.
  - reflexivity.
Defined.

Lemma no_brace_gives_sentinel_witness :
  fst (job_fit JSON.loads (answers EmptyString) remote_first start)
  = Return (invalid_json EmptyString) /\
  CACHE (snd (job_fit JSON.loads (answers EmptyString) remote_first start))
    !! cache_key remote_first = Some (invalid_json EmptyString).
Proof.
  apply (no_brace_gives_sentinel JSON.loads (answers EmptyString) remote_first start
           "My resume" EmptyString).
  - reflexivity.
  - discriminate.
  - vm_compute. reflexivity.
  - reflexivity.
  - vm_compute. reflexivity.
  - reflexivity.
Defined.

Lemma failure_then_retry_witness :
  let st' := snd (job_fit JSON.loads timeout remote_first start) in
  CACHE st' !! cache_key remote_first = None /\
  forall (ollama' : string -> reply) (text : string) (v : json),
    ollama' (prompt_of "My resume" remote_first) = Generated text ->
    parse_verdict JSON.loads text = inl v ->
    fst (job_fit JSON.loads ollama' remote_first st') = Return v /\
    CACHE (snd (job_fit JSON.loads ollama' remote_first st')) !! cache_key remote_first
    = Some v.
Proof.
  apply (failure_then_retry JSON.loads timeout remote_first start "My resume").
  - reflexivity.
  - discriminate.
  - vm_compute. reflexivity.
Defined.

Lemma answer_200_is_final_witness :
  let later :=
    serve JSON.loads [(answers good_verdict, other_request)]
      (snd (job_fit JSON.loads chatty remote_first start)) in
  fst (job_fit JSON.loads timeout remote_first later)
  = Return (invalid_json "not json at all") /\
  CACHE (snd (job_fit JSON.loads timeout remote_first later)) = CACHE later.
Proof.
  refine (answer_200_is_final JSON.loads chatty remote_first start
            (invalid_json "not json at all") _
            [(answers good_verdict, other_request)] timeout).
  vm_compute. reflexivity.
Defined.

Lemma cache_entries_come_from_requests_witness :
  exists ollama req c r text,
    (ollama, req) ∈ [(chatty, remote_first); (timeout, other_request)] /\
    resume req = Some (String c r) /\ cache_key remote_first = cache_key req /\
    ollama (prompt_of (String c r) req) = Generated text /\
    parse_verdict JSON.loads text = inl (invalid_json "not json at all").
Proof.
  apply (cache_entries_come_from_requests JSON.loads
           [(chatty, remote_first); (timeout, other_request)]
           (cache_key remote_first) (invalid_json "not json at all")).
  vm_compute. reflexivity.
Defined.

Lemma truncated_resume_false_hit_witness :
  let st' := snd (job_fit JSON.loads (answers good_verdict) resume_a start) in
  prompt_of (fifty +:+ "; Airflow") resume_a
  <> prompt_of (fifty +:+ "; dbt and Terraform") resume_b /\
  job_fit JSON.loads timeout resume_b st'
  = (Return fit_80, called [CacheGet (cache_key resume_b)] st').
Proof.
  apply (truncated_resume_false_hit JSON.loads (answers good_verdict) timeout
           fifty "; Airflow" "; dbt and Terraform"
           (Some [("remote", JBool true)]) "Staff Engineer" start
           (snd (job_fit JSON.loads (answers good_verdict) resume_a start)) fit_80).
  - reflexivity.
  - discriminate.
  - vm_compute. reflexivity.
  - vm_compute. reflexivity.
Defined.
